(** * ATtiny85 time switch: a shallow embedding of [src/main.cpp]

    The firmware cycles a battery-fed load on a duty schedule and latches the
    load off when the battery voltage drops under a threshold.  The embedding
    keeps the firmware's globals, the function-local statics of [loop()] and
    the three hardware bits the code reads back in one [machine] record, and
    writes every function that touches them in a small state monad.  Fixed
    width integers are [Z] with the wrap-around written out. *)

From Stdlib Require Import ZArith List Bool Lia.
Import ListNotations.
Open Scope Z_scope.

(** ** Fixed-width unsigned integers of the AVR target *)

Module Word.

Definition u8 (z : Z) : Z := z mod 2 ^ 8.
Definition u16 (z : Z) : Z := z mod 2 ^ 16.
Definition u32 (z : Z) : Z := z mod 2 ^ 32.

Lemma u16_small z : 0 <= z < 2 ^ 16 -> u16 z = z.
Proof. intros H. unfold u16. now apply Z.mod_small. Qed.

Lemma u32_small z : 0 <= z < 2 ^ 32 -> u32 z = z.
Proof. intros H. unfold u32. now apply Z.mod_small. Qed.

Lemma u8_range z : 0 <= u8 z < 2 ^ 8.
Proof. unfold u8. apply Z.mod_pos_bound. reflexivity. Qed.

Lemma u16_range z : 0 <= u16 z < 2 ^ 16.
Proof. unfold u16. apply Z.mod_pos_bound. reflexivity. Qed.

Lemma u32_range z : 0 <= u32 z < 2 ^ 32.
Proof. unfold u32. apply Z.mod_pos_bound. reflexivity. Qed.

End Word.
Import Word.

(** ** Constants ([#define]s and the EEPROM address enum) *)

Definition TIMING_CYCLES_BATTERY_MEASUREMENT : Z := 110.
Definition ADC_BATTERY_THRESHOLD_12v : Z := 721.
Definition ADC_BATTERY_THRESHOLD_24v : Z := 726.
Definition TIMING_CYCLES_LOAD_ON_12V : Z := 7031.
Definition TIMING_CYCLES_LOAD_OFF_12V : Z := 3516.
Definition TIMING_CYCLES_LOAD_ON_24V : Z := 8789.
Definition TIMING_CYCLES_LOAD_OFF_24V : Z := 1758.

Definition EEPROM_ADDR_CLOCK_CALIB_3_MSB : Z := 0.
Definition EEPROM_ADDR_CLOCK_CALIB_2 : Z := 1.
Definition EEPROM_ADDR_CLOCK_CALIB_1 : Z := 2.
Definition EEPROM_ADDR_CLOCK_CALIB_0_LSB : Z := 3.
Definition EEPROM_ADDR_CLOCK_CALIB_MAGIC_NUMBER : Z := 4.

Definition EEPROM_CLOCK_CALIB_MAGIC_NUMBER : Z := 0xCD.
Definition SLEEP_CLOCK_VALUE_HZ : Z := 128000.
Definition SLEEP_CLOCK_DEVIATION_MAX_HZ : Z := 30000.

Definition ADC_AVERAGE_NUM : nat := 32.
Definition ADC_DIVISION_SHIFT : Z := 5.

(** Pin levels. *)
Definition HIGH : bool := true.
Definition LOW : bool := false.

(** [enum wake_states], kept as the integer the [switch] dispatches on, so
    that the [default:] label has values to be taken on. *)
Definition STATE_LOAD_ON : Z := 0.
Definition STATE_LOAD_OFF : Z := 1.

(** ** The board as [setup()] finds it

    The EEPROM is a map from addresses to cells; [EEPROM_read] returns a
    [uint8_t].  The two jumpers are the levels [digitalRead] returns. *)

Record board := mk_board {
  eeprom : Z -> Z;
  SELECT_12_24V_PIN : bool;
  SELECT_FEATURE_PIN : bool
}.

Definition EEPROM_read (b : board) (addr : Z) : Z := u8 (eeprom b addr).

Definition get_12V_24V_selection (b : board) : bool :=
  Bool.eqb (SELECT_12_24V_PIN b) HIGH.

Definition get_feature_selection (b : board) : bool :=
  Bool.eqb (SELECT_FEATURE_PIN b) LOW.

Definition clock_calibration_present (b : board) : bool :=
  EEPROM_read b EEPROM_ADDR_CLOCK_CALIB_MAGIC_NUMBER =? EEPROM_CLOCK_CALIB_MAGIC_NUMBER.

(** ** Clock calibration *)

Definition read_clock_calibration (b : board) : Z :=
  let clock_calib :=
    Z.lor (Z.lor (Z.lor
      (u32 (Z.shiftl (EEPROM_read b EEPROM_ADDR_CLOCK_CALIB_3_MSB) 24))
      (u32 (Z.shiftl (EEPROM_read b EEPROM_ADDR_CLOCK_CALIB_2) 16)))
      (u32 (Z.shiftl (EEPROM_read b EEPROM_ADDR_CLOCK_CALIB_1) 8)))
      (EEPROM_read b EEPROM_ADDR_CLOCK_CALIB_0_LSB) in
  if clock_calib =? 0xFFFFFFFF then 0 else clock_calib.

(** Both parameters and the result are [uint32_t]; the product wraps. *)
Definition apply_clock_calibration (clock_calibration uncalibrated_value : Z) : Z :=
  if (clock_calibration <? SLEEP_CLOCK_VALUE_HZ - SLEEP_CLOCK_DEVIATION_MAX_HZ)
     || (clock_calibration >? SLEEP_CLOCK_VALUE_HZ + SLEEP_CLOCK_DEVIATION_MAX_HZ)
  then uncalibrated_value
  else u32 (clock_calibration * uncalibrated_value) / SLEEP_CLOCK_VALUE_HZ.

(** ** The machine: globals, [loop()]'s statics, hardware bits, call trace *)

(** Calls that reach the load switch or the ADC, in the order they happen. *)
Inductive event : Type :=
| Ev_enable_load (enable : bool)
| Ev_read_battery_voltage (result : Z).

Record machine := mk_machine {
  (* hardware *)
  VBAT_EN_PIN : bool;
  VDIV_EN_PIN : bool;
  ADEN : bool;
  (* file-scope statics *)
  clock_calibration : Z;
  all_features_activated : bool;
  timing_cycles_load_on : Z;
  timing_cycles_load_off : Z;
  undervoltage_adc_threshold : Z;
  (* statics of loop() *)
  wakeup_count_load_feature : Z;
  wakeup_count_undervoltage_protection : Z;
  undervoltage_protection_triggered : bool;
  wake_state : Z;
  (* ghost: the calls made so far, oldest first *)
  trace : list event
}.

Definition set_VBAT_EN_PIN v m :=
  mk_machine v (VDIV_EN_PIN m) (ADEN m) (clock_calibration m)
    (all_features_activated m) (timing_cycles_load_on m)
    (timing_cycles_load_off m) (undervoltage_adc_threshold m)
    (wakeup_count_load_feature m) (wakeup_count_undervoltage_protection m)
    (undervoltage_protection_triggered m) (wake_state m) (trace m).

Definition set_VDIV_EN_PIN v m :=
  mk_machine (VBAT_EN_PIN m) v (ADEN m) (clock_calibration m)
    (all_features_activated m) (timing_cycles_load_on m)
    (timing_cycles_load_off m) (undervoltage_adc_threshold m)
    (wakeup_count_load_feature m) (wakeup_count_undervoltage_protection m)
    (undervoltage_protection_triggered m) (wake_state m) (trace m).

Definition set_ADEN v m :=
  mk_machine (VBAT_EN_PIN m) (VDIV_EN_PIN m) v (clock_calibration m)
    (all_features_activated m) (timing_cycles_load_on m)
    (timing_cycles_load_off m) (undervoltage_adc_threshold m)
    (wakeup_count_load_feature m) (wakeup_count_undervoltage_protection m)
    (undervoltage_protection_triggered m) (wake_state m) (trace m).

Definition set_clock_calibration v m :=
  mk_machine (VBAT_EN_PIN m) (VDIV_EN_PIN m) (ADEN m) v
    (all_features_activated m) (timing_cycles_load_on m)
    (timing_cycles_load_off m) (undervoltage_adc_threshold m)
    (wakeup_count_load_feature m) (wakeup_count_undervoltage_protection m)
    (undervoltage_protection_triggered m) (wake_state m) (trace m).

Definition set_all_features_activated v m :=
  mk_machine (VBAT_EN_PIN m) (VDIV_EN_PIN m) (ADEN m) (clock_calibration m)
    v (timing_cycles_load_on m)
    (timing_cycles_load_off m) (undervoltage_adc_threshold m)
    (wakeup_count_load_feature m) (wakeup_count_undervoltage_protection m)
    (undervoltage_protection_triggered m) (wake_state m) (trace m).

Definition set_timing_cycles_load_on v m :=
  mk_machine (VBAT_EN_PIN m) (VDIV_EN_PIN m) (ADEN m) (clock_calibration m)
    (all_features_activated m) v
    (timing_cycles_load_off m) (undervoltage_adc_threshold m)
    (wakeup_count_load_feature m) (wakeup_count_undervoltage_protection m)
    (undervoltage_protection_triggered m) (wake_state m) (trace m).

Definition set_timing_cycles_load_off v m :=
  mk_machine (VBAT_EN_PIN m) (VDIV_EN_PIN m) (ADEN m) (clock_calibration m)
    (all_features_activated m) (timing_cycles_load_on m)
    v (undervoltage_adc_threshold m)
    (wakeup_count_load_feature m) (wakeup_count_undervoltage_protection m)
    (undervoltage_protection_triggered m) (wake_state m) (trace m).

Definition set_undervoltage_adc_threshold v m :=
  mk_machine (VBAT_EN_PIN m) (VDIV_EN_PIN m) (ADEN m) (clock_calibration m)
    (all_features_activated m) (timing_cycles_load_on m)
    (timing_cycles_load_off m) v
    (wakeup_count_load_feature m) (wakeup_count_undervoltage_protection m)
    (undervoltage_protection_triggered m) (wake_state m) (trace m).

Definition set_wakeup_count_load_feature v m :=
  mk_machine (VBAT_EN_PIN m) (VDIV_EN_PIN m) (ADEN m) (clock_calibration m)
    (all_features_activated m) (timing_cycles_load_on m)
    (timing_cycles_load_off m) (undervoltage_adc_threshold m)
    v (wakeup_count_undervoltage_protection m)
    (undervoltage_protection_triggered m) (wake_state m) (trace m).

Definition set_wakeup_count_undervoltage_protection v m :=
  mk_machine (VBAT_EN_PIN m) (VDIV_EN_PIN m) (ADEN m) (clock_calibration m)
    (all_features_activated m) (timing_cycles_load_on m)
    (timing_cycles_load_off m) (undervoltage_adc_threshold m)
    (wakeup_count_load_feature m) v
    (undervoltage_protection_triggered m) (wake_state m) (trace m).

Definition set_undervoltage_protection_triggered v m :=
  mk_machine (VBAT_EN_PIN m) (VDIV_EN_PIN m) (ADEN m) (clock_calibration m)
    (all_features_activated m) (timing_cycles_load_on m)
    (timing_cycles_load_off m) (undervoltage_adc_threshold m)
    (wakeup_count_load_feature m) (wakeup_count_undervoltage_protection m)
    v (wake_state m) (trace m).

Definition set_wake_state v m :=
  mk_machine (VBAT_EN_PIN m) (VDIV_EN_PIN m) (ADEN m) (clock_calibration m)
    (all_features_activated m) (timing_cycles_load_on m)
    (timing_cycles_load_off m) (undervoltage_adc_threshold m)
    (wakeup_count_load_feature m) (wakeup_count_undervoltage_protection m)
    (undervoltage_protection_triggered m) v (trace m).

Definition record_call (e : event) m :=
  mk_machine (VBAT_EN_PIN m) (VDIV_EN_PIN m) (ADEN m) (clock_calibration m)
    (all_features_activated m) (timing_cycles_load_on m)
    (timing_cycles_load_off m) (undervoltage_adc_threshold m)
    (wakeup_count_load_feature m) (wakeup_count_undervoltage_protection m)
    (undervoltage_protection_triggered m) (wake_state m) (trace m ++ [e]).

(** ** A state monad over the machine *)

Definition M (A : Type) : Type := machine -> A * machine.

Definition ret {A} (a : A) : M A := fun m => (a, m).
Definition bind {A B} (c : M A) (k : A -> M B) : M B :=
  fun m => let (a, m') := c m in k a m'.
Definition gets {A} (f : machine -> A) : M A := fun m => (f m, m).
Definition modify (f : machine -> machine) : M unit := fun m => (tt, f m).
Definition exec {A} (c : M A) (m : machine) : machine := snd (c m).
Definition eval {A} (c : M A) (m : machine) : A := fst (c m).

Notation "x <- c1 ;; c2" := (bind c1 (fun x => c2))
  (at level 61, c1 at next level, right associativity).
Notation "c1 ;; c2" := (bind c1 (fun _ => c2))
  (at level 61, right associativity).

(** ** Hardware access functions *)

Definition enable_voltage_divider (enable : bool) : M unit :=
  modify (set_VDIV_EN_PIN (if enable then LOW else HIGH)).

Definition enable_load (enable : bool) : M unit :=
  modify (record_call (Ev_enable_load enable)) ;;
  modify (set_VBAT_EN_PIN (if enable then HIGH else LOW)).

Definition is_load_enabled : M bool :=
  lvl <- gets VBAT_EN_PIN ;; ret (Bool.eqb lvl HIGH).

Definition load_timing_activated : M bool :=
  a <- gets all_features_activated ;; ret (Bool.eqb a true).

Definition enable_adc (enable : bool) : M unit :=
  if enable then modify (set_ADEN true) else modify (set_ADEN false).

(** The [for] loop of [read_battery_voltage]: [n] more conversions, starting
    at index [adc_reading], accumulated into the [uint16_t] [battery_voltage].
    [analogRead i] is what the [i]-th conversion of this call returns. *)
Fixpoint accumulate_readings (analogRead : nat -> Z) (adc_reading n : nat)
    (battery_voltage : Z) : Z :=
  match n with
  | O => battery_voltage
  | S n' =>
      accumulate_readings analogRead (S adc_reading) n'
        (u16 (battery_voltage + analogRead adc_reading))
  end.

Definition read_battery_voltage (analogRead : nat -> Z) : M Z :=
  enable_adc true ;;
  enable_voltage_divider true ;;
  let battery_voltage := accumulate_readings analogRead 0 ADC_AVERAGE_NUM 0 in
  let battery_voltage := Z.shiftr battery_voltage ADC_DIVISION_SHIFT in
  enable_voltage_divider false ;;
  enable_adc false ;;
  modify (record_call (Ev_read_battery_voltage battery_voltage)) ;;
  ret battery_voltage.

(** The value [read_battery_voltage] returns, as a function of the readings. *)
Definition battery_sample (analogRead : nat -> Z) : Z :=
  Z.shiftr (accumulate_readings analogRead 0 ADC_AVERAGE_NUM 0) ADC_DIVISION_SHIFT.

Definition initialize_gpios : M unit :=
  enable_voltage_divider false ;;
  enable_load false.

(** ** [setup()] *)

(** Memory and pins at reset: statics hold their initialisers. *)
Definition power_on : machine :=
  mk_machine LOW LOW false 0 false 0 0 0 0 0 false STATE_LOAD_ON [].

Definition setup (b : board) : M unit :=
  initialize_gpios ;;
  enable_adc false ;;
  modify (set_clock_calibration (read_clock_calibration b)) ;;
  modify (set_all_features_activated (get_feature_selection b)) ;;
  let _12_24V_selection := get_12V_24V_selection b in
  modify (set_timing_cycles_load_on
    (if Bool.eqb _12_24V_selection true
     then TIMING_CYCLES_LOAD_ON_12V else TIMING_CYCLES_LOAD_ON_24V)) ;;
  modify (set_timing_cycles_load_off
    (if Bool.eqb _12_24V_selection true
     then TIMING_CYCLES_LOAD_OFF_12V else TIMING_CYCLES_LOAD_OFF_24V)) ;;
  modify (set_undervoltage_adc_threshold
    (if Bool.eqb _12_24V_selection true
     then ADC_BATTERY_THRESHOLD_12v else ADC_BATTERY_THRESHOLD_24v)) ;;
  (if clock_calibration_present b then
     c <- gets clock_calibration ;;
     t_on <- gets timing_cycles_load_on ;;
     modify (set_timing_cycles_load_on (u16 (apply_clock_calibration c t_on))) ;;
     c <- gets clock_calibration ;;
     t_off <- gets timing_cycles_load_off ;;
     modify (set_timing_cycles_load_off (u16 (apply_clock_calibration c t_off)))
   else ret tt) ;;
  enable_load true.

(** ** [loop()]

    One call of [loop()] is one tick.  Its body is split at the source's two
    top-level [if] statements. *)

(** Returns when the watchdog fires; none of the modelled state changes. *)
Definition go_to_sleep : M unit := ret tt.

(** Lines 352-354. *)
Definition loop_wakeup : M unit :=
  go_to_sleep ;;
  c <- gets wakeup_count_load_feature ;;
  modify (set_wakeup_count_load_feature (u16 (c + 1))) ;;
  c <- gets wakeup_count_undervoltage_protection ;;
  modify (set_wakeup_count_undervoltage_protection (u16 (c + 1))).

(** Lines 356-365. *)
Definition loop_undervoltage_protection (analogRead : nat -> Z) : M unit :=
  en <- is_load_enabled ;;
  c <- gets wakeup_count_undervoltage_protection ;;
  if en && (c >=? TIMING_CYCLES_BATTERY_MEASUREMENT) then
    modify (set_wakeup_count_undervoltage_protection 0) ;;
    v <- read_battery_voltage analogRead ;;
    threshold <- gets undervoltage_adc_threshold ;;
    if v <? threshold then
      enable_load false ;;
      modify (set_undervoltage_protection_triggered true)
    else ret tt
  else ret tt.

(** Lines 367-394. *)
Definition loop_load_timing : M unit :=
  activated <- load_timing_activated ;;
  triggered <- gets undervoltage_protection_triggered ;;
  if activated && negb triggered then
    s <- gets wake_state ;;
    if s =? STATE_LOAD_ON then
      c <- gets wakeup_count_load_feature ;;
      t_on <- gets timing_cycles_load_on ;;
      if c >=? t_on then
        modify (set_wakeup_count_load_feature 0) ;;
        enable_load false ;;
        modify (set_wake_state STATE_LOAD_OFF)
      else ret tt
    else if s =? STATE_LOAD_OFF then
      c <- gets wakeup_count_load_feature ;;
      t_off <- gets timing_cycles_load_off ;;
      if c >=? t_off then
        modify (set_wakeup_count_load_feature 0) ;;
        enable_load true ;;
        modify (set_wake_state STATE_LOAD_ON)
      else ret tt
    else
      modify (set_wake_state STATE_LOAD_OFF)
  else ret tt.

Definition loop (analogRead : nat -> Z) : M unit :=
  loop_wakeup ;;
  loop_undervoltage_protection analogRead ;;
  loop_load_timing.

(** ** Runs: [setup()] once, then [loop()] once per tick *)

(** A tick's input is what the ADC would return during that tick. *)
Definition tick_input : Type := nat -> Z.

Definition boot (b : board) : machine := exec (setup b) power_on.

Definition tick (m : machine) (adc : tick_input) : machine := exec (loop adc) m.

Definition run (m : machine) (ticks : list tick_input) : machine :=
  fold_left tick ticks m.

Definition load_on (m : machine) : bool := eval is_load_enabled m.

(** * Verification *)

(** ** The effect of each block of [loop()] as a function on machines *)

(** Reduces projections of updated machines and the monad's plumbing, and
    nothing else: integer operations stay as written. *)
Ltac fields :=
  cbn [VBAT_EN_PIN VDIV_EN_PIN ADEN clock_calibration all_features_activated
       timing_cycles_load_on timing_cycles_load_off undervoltage_adc_threshold
       wakeup_count_load_feature wakeup_count_undervoltage_protection
       undervoltage_protection_triggered wake_state trace
       set_VBAT_EN_PIN set_VDIV_EN_PIN set_ADEN set_clock_calibration
       set_all_features_activated set_timing_cycles_load_on
       set_timing_cycles_load_off set_undervoltage_adc_threshold
       set_wakeup_count_load_feature set_wakeup_count_undervoltage_protection
       set_undervoltage_protection_triggered set_wake_state record_call
       exec eval bind ret gets modify fst snd enable_load enable_adc
       enable_voltage_divider is_load_enabled load_timing_activated
       go_to_sleep load_on] in *.

Lemma exec_loop_wakeup m :
  exec loop_wakeup m =
  set_wakeup_count_undervoltage_protection
    (u16 (wakeup_count_undervoltage_protection m + 1))
    (set_wakeup_count_load_feature (u16 (wakeup_count_load_feature m + 1)) m).
Proof. reflexivity. Qed.

Lemma read_battery_voltage_run adc m :
  read_battery_voltage adc m =
  (battery_sample adc,
   record_call (Ev_read_battery_voltage (battery_sample adc))
     (set_ADEN false (set_VDIV_EN_PIN HIGH m))).
Proof.
  unfold read_battery_voltage, battery_sample.
  generalize (Z.shiftr (accumulate_readings adc 0 ADC_AVERAGE_NUM 0) ADC_DIVISION_SHIFT).
  intros v. destruct m; reflexivity.
Qed.

(** What the machine looks like after a measurement that found [v]. *)
Definition measured (v : Z) (m : machine) : machine :=
  record_call (Ev_read_battery_voltage v)
    (set_ADEN false (set_VDIV_EN_PIN HIGH
      (set_wakeup_count_undervoltage_protection 0 m))).

Lemma exec_loop_undervoltage_protection adc m :
  exec (loop_undervoltage_protection adc) m =
  if VBAT_EN_PIN m
     && (wakeup_count_undervoltage_protection m >=? TIMING_CYCLES_BATTERY_MEASUREMENT)
  then
    if battery_sample adc <? undervoltage_adc_threshold m
    then set_undervoltage_protection_triggered true
           (exec (enable_load false) (measured (battery_sample adc) m))
    else measured (battery_sample adc) m
  else m.
Proof.
  unfold loop_undervoltage_protection, measured. unfold exec at 1. unfold bind at 1 2.
  fields.
  destruct (VBAT_EN_PIN m); cbn [Bool.eqb HIGH andb]; [|reflexivity].
  destruct (_ >=? _); [|reflexivity].
  unfold bind at 1 2. fields. rewrite read_battery_voltage_run.
  generalize (battery_sample adc). intros v. fields.
  destruct (v <? _); reflexivity.
Qed.

Lemma exec_loop_load_timing m :
  exec loop_load_timing m =
  if all_features_activated m && negb (undervoltage_protection_triggered m) then
    if wake_state m =? STATE_LOAD_ON then
      if wakeup_count_load_feature m >=? timing_cycles_load_on m
      then set_wake_state STATE_LOAD_OFF
             (exec (enable_load false) (set_wakeup_count_load_feature 0 m))
      else m
    else if wake_state m =? STATE_LOAD_OFF then
      if wakeup_count_load_feature m >=? timing_cycles_load_off m
      then set_wake_state STATE_LOAD_ON
             (exec (enable_load true) (set_wakeup_count_load_feature 0 m))
      else m
    else set_wake_state STATE_LOAD_OFF m
  else m.
Proof.
  destruct m as [vb vd ad cc af t_on t_off th lf uv tr ws evs].
  unfold loop_load_timing, load_timing_activated.
  cbv [exec bind gets ret fst snd all_features_activated
       undervoltage_protection_triggered wake_state wakeup_count_load_feature
       timing_cycles_load_on timing_cycles_load_off].
  destruct af; cbn [Bool.eqb andb]; [|reflexivity].
  destruct tr; cbn [negb]; [reflexivity|].
  destruct (ws =? STATE_LOAD_ON).
  - destruct (lf >=? t_on); reflexivity.
  - destruct (ws =? STATE_LOAD_OFF); [|reflexivity].
    destruct (lf >=? t_off); reflexivity.
Qed.

Lemma tick_blocks m adc :
  tick m adc =
  exec loop_load_timing
    (exec (loop_undervoltage_protection adc) (exec loop_wakeup m)).
Proof.
  unfold tick, loop, exec, bind.
  destruct (loop_wakeup m) as [[] m1]. cbn [snd].
  destruct (loop_undervoltage_protection adc m1) as [[] m2]. reflexivity.
Qed.

Lemma run_app m l1 l2 : run m (l1 ++ l2) = run (run m l1) l2.
Proof. apply fold_left_app. Qed.

Lemma run_snoc m l adc : run m (l ++ [adc]) = tick (run m l) adc.
Proof. now rewrite run_app. Qed.

Lemma run_cons m adc l : run m (adc :: l) = run (tick m adc) l.
Proof. reflexivity. Qed.

(** ** Clock calibration *)

Lemma calibration_accepted c :
  98000 <= c <= 158000 ->
  (c <? SLEEP_CLOCK_VALUE_HZ - SLEEP_CLOCK_DEVIATION_MAX_HZ)
  || (c >? SLEEP_CLOCK_VALUE_HZ + SLEEP_CLOCK_DEVIATION_MAX_HZ) = false.
Proof.
  unfold SLEEP_CLOCK_VALUE_HZ, SLEEP_CLOCK_DEVIATION_MAX_HZ. intros H.
  apply orb_false_iff. split; [apply Z.ltb_ge | rewrite Z.gtb_ltb; apply Z.ltb_ge]; lia.
Qed.

Lemma calibration_discarded c :
  ~ 98000 <= c <= 158000 ->
  (c <? SLEEP_CLOCK_VALUE_HZ - SLEEP_CLOCK_DEVIATION_MAX_HZ)
  || (c >? SLEEP_CLOCK_VALUE_HZ + SLEEP_CLOCK_DEVIATION_MAX_HZ) = true.
Proof.
  unfold SLEEP_CLOCK_VALUE_HZ, SLEEP_CLOCK_DEVIATION_MAX_HZ. intros H.
  apply orb_true_iff. rewrite Z.gtb_ltb, !Z.ltb_lt. lia.
Qed.

Lemma apply_clock_calibration_accepted c n :
  98000 <= c <= 158000 ->
  apply_clock_calibration c n = ((c * n) mod 2 ^ 32) / 128000.
Proof.
  intros H. unfold apply_clock_calibration. now rewrite calibration_accepted.
Qed.

Lemma apply_clock_calibration_discarded c n :
  ~ 98000 <= c <= 158000 -> apply_clock_calibration c n = n.
Proof.
  intros H. unfold apply_clock_calibration. now rewrite calibration_discarded.
Qed.

Lemma apply_clock_calibration_exact c n :
  98000 <= c <= 158000 -> 0 <= n -> c * n < 2 ^ 32 ->
  apply_clock_calibration c n = c * n / 128000.
Proof.
  intros Hc Hn Hfit. rewrite apply_clock_calibration_accepted by assumption.
  rewrite Z.mod_small; [reflexivity | split; [nia | assumption]].
Qed.

(** Tick counts up to the largest nominal one stay within [uint16_t]. *)
Lemma apply_clock_calibration_fits c n :
  0 <= n <= 8789 -> 0 <= apply_clock_calibration c n < 2 ^ 16.
Proof.
  intros Hn.
  destruct (Z_le_dec 98000 c) as [Hlo|Hlo]; [destruct (Z_le_dec c 158000) as [Hhi|Hhi]|].
  - rewrite apply_clock_calibration_exact by (try nia; lia).
    split; [apply Z.div_pos; nia | apply Z.div_lt_upper_bound; nia].
  - rewrite apply_clock_calibration_discarded by lia. lia.
  - rewrite apply_clock_calibration_discarded by lia. lia.
Qed.

(** C3, as stated, fails: the 32-bit product wraps for a 16-bit tick count. *)
Lemma apply_clock_calibration_wraps :
  98000 <= 128000 <= 158000 /\ 0 <= 33555 < 2 ^ 16 /\
  apply_clock_calibration 128000 33555 = 0 /\
  128000 * 33555 / 128000 = 33555 /\
  apply_clock_calibration 128000 33555 <> 128000 * 33555 / 128000.
Proof.
  repeat split; try lia; try reflexivity. vm_compute. discriminate.
Qed.

(** C3 (amended): for a calibration constant [c] in [98000, 158000] and a
    nominal value [n] whose product [c * n] fits in 32 bits -- every
    [n <= 27182] does, so the four nominal tick counts do --
    [apply_clock_calibration c n] is [c * n / 128000] truncated; in general it
    is [((c * n) mod 2^32) / 128000].  For [c] outside the range the result
    is [n] unchanged. *)
Theorem apply_clock_calibration_spec (c n : Z) (Hn : 0 <= n) :
  (98000 <= c <= 158000 -> c * n < 2 ^ 32 ->
     apply_clock_calibration c n = c * n / 128000) /\
  (98000 <= c <= 158000 -> n <= 27182 ->
     apply_clock_calibration c n = c * n / 128000) /\
  (98000 <= c <= 158000 ->
     apply_clock_calibration c n = ((c * n) mod 2 ^ 32) / 128000) /\
  (~ 98000 <= c <= 158000 -> apply_clock_calibration c n = n).
Proof.
  repeat split.
  - intros Hc Hfit. now apply apply_clock_calibration_exact.
  - intros Hc Hsmall. apply apply_clock_calibration_exact; try assumption. nia.
  - apply apply_clock_calibration_accepted.
  - apply apply_clock_calibration_discarded.
Qed.

Lemma apply_clock_calibration_spec_witness :
  apply_clock_calibration 140000 7031 = 140000 * 7031 / 128000 /\
  apply_clock_calibration 97999 7031 = 7031.
Proof.
  split.
  - apply (apply_clock_calibration_spec 140000 7031); lia.
  - apply (apply_clock_calibration_spec 97999 7031); lia.
Defined.

(** ** [setup()] *)

Definition nominal_on (b : board) : Z :=
  if get_12V_24V_selection b
  then TIMING_CYCLES_LOAD_ON_12V else TIMING_CYCLES_LOAD_ON_24V.

Definition nominal_off (b : board) : Z :=
  if get_12V_24V_selection b
  then TIMING_CYCLES_LOAD_OFF_12V else TIMING_CYCLES_LOAD_OFF_24V.

Definition nominal_threshold (b : board) : Z :=
  if get_12V_24V_selection b
  then ADC_BATTERY_THRESHOLD_12v else ADC_BATTERY_THRESHOLD_24v.

Lemma nominal_on_range b : 0 <= nominal_on b <= 8789.
Proof. unfold nominal_on. destruct (get_12V_24V_selection b); cbv; split; discriminate. Qed.

Lemma nominal_off_range b : 0 <= nominal_off b <= 8789.
Proof. unfold nominal_off. destruct (get_12V_24V_selection b); cbv; split; discriminate. Qed.

(** The machine [setup()] leaves behind, field by field. *)
Lemma boot_eq b :
  boot b =
  mk_machine HIGH HIGH false (read_clock_calibration b) (get_feature_selection b)
    (if clock_calibration_present b
     then apply_clock_calibration (read_clock_calibration b) (nominal_on b)
     else nominal_on b)
    (if clock_calibration_present b
     then apply_clock_calibration (read_clock_calibration b) (nominal_off b)
     else nominal_off b)
    (nominal_threshold b)
    0 0 false STATE_LOAD_ON
    [Ev_enable_load false; Ev_enable_load true].
Proof.
  unfold boot, setup, initialize_gpios, power_on, nominal_threshold.
  pose proof (apply_clock_calibration_fits (read_clock_calibration b) _ (nominal_on_range b)) as Hon.
  pose proof (apply_clock_calibration_fits (read_clock_calibration b) _ (nominal_off_range b)) as Hoff.
  apply u16_small in Hon, Hoff. revert Hon Hoff.
  unfold nominal_on, nominal_off.
  generalize (read_clock_calibration b). intros c.
  destruct (clock_calibration_present b), (get_12V_24V_selection b);
    cbn [Bool.eqb]; intros Hon Hoff; fields; cbn [app];
    rewrite ?Hon, ?Hoff; reflexivity.
Qed.

(** ** One tick, case by case *)

Ltac branch :=
  match goal with
  | |- context [if ?b then _ else _] =>
      lazymatch b with
      | context [if _ then _ else _] => fail
      | _ => destruct b eqn:?
      end
  end.

(** Splits a tick into the paths [loop()] can take. *)
Ltac tick_cases :=
  rewrite tick_blocks, exec_loop_load_timing, exec_loop_undervoltage_protection,
    exec_loop_wakeup;
  unfold measured; fields; repeat (branch; fields).

Ltac prop_of_bool :=
  repeat match goal with
  | H : _ && _ = true |- _ => apply andb_true_iff in H; destruct H
  | H : _ && _ = false |- _ => apply andb_false_iff in H
  | H : negb _ = true |- _ => apply negb_true_iff in H
  | H : negb _ = false |- _ => apply negb_false_iff in H
  | H : (_ >=? _) = true |- _ => apply Z.geb_le in H
  | H : (_ >=? _) = false |- _ => rewrite Z.geb_leb in H; apply Z.leb_gt in H
  | H : (_ <? _) = true |- _ => apply Z.ltb_lt in H
  | H : (_ <? _) = false |- _ => apply Z.ltb_ge in H
  | H : (_ <=? _) = true |- _ => apply Z.leb_le in H
  | H : (_ <=? _) = false |- _ => apply Z.leb_gt in H
  | H : (_ =? _) = true |- _ => apply Z.eqb_eq in H
  | H : (_ =? _) = false |- _ => apply Z.eqb_neq in H
  end.

(** Closes the paths whose branch conditions contradict the hypotheses. *)
Ltac absurd_path :=
  prop_of_bool;
  unfold STATE_LOAD_ON, STATE_LOAD_OFF, HIGH, LOW,
    TIMING_CYCLES_BATTERY_MEASUREMENT in *;
  solve [ discriminate | congruence | lia
        | match goal with
          | H : _ \/ _ |- _ => destruct H; absurd_path
          end ].

(** [loop()] writes none of the configuration that [setup()] derived. *)
Lemma tick_config m adc :
  clock_calibration (tick m adc) = clock_calibration m /\
  all_features_activated (tick m adc) = all_features_activated m /\
  timing_cycles_load_on (tick m adc) = timing_cycles_load_on m /\
  timing_cycles_load_off (tick m adc) = timing_cycles_load_off m /\
  undervoltage_adc_threshold (tick m adc) = undervoltage_adc_threshold m.
Proof. tick_cases; repeat split; reflexivity. Qed.

Lemma run_config m ticks :
  clock_calibration (run m ticks) = clock_calibration m /\
  all_features_activated (run m ticks) = all_features_activated m /\
  timing_cycles_load_on (run m ticks) = timing_cycles_load_on m /\
  timing_cycles_load_off (run m ticks) = timing_cycles_load_off m /\
  undervoltage_adc_threshold (run m ticks) = undervoltage_adc_threshold m.
Proof.
  revert m. induction ticks as [|adc ticks IH]; intros m.
  - repeat split; reflexivity.
  - rewrite run_cons.
    destruct (IH (tick m adc)) as (-> & -> & -> & -> & ->). apply tick_config.
Qed.

(** The tick on which the guard measures an undervoltage: the load is on,
    the incremented cadence counter has reached the measurement period, and
    the averaged sample is under the threshold. *)
Definition measurement_due (m : machine) : bool :=
  load_on m
  && (u16 (wakeup_count_undervoltage_protection m + 1)
      >=? TIMING_CYCLES_BATTERY_MEASUREMENT).

Definition undervoltage_detected (m : machine) (adc : tick_input) : bool :=
  measurement_due m && (battery_sample adc <? undervoltage_adc_threshold m).

Lemma load_on_pin m : load_on m = VBAT_EN_PIN m.
Proof. unfold load_on, eval, is_load_enabled. fields. now destruct (VBAT_EN_PIN m). Qed.

(** The latch is set by the guard and by nothing else, and never cleared. *)
Lemma tick_latch m adc :
  undervoltage_protection_triggered (tick m adc) =
  undervoltage_protection_triggered m || undervoltage_detected m adc.
Proof.
  unfold undervoltage_detected, measurement_due. rewrite load_on_pin.
  tick_cases; rewrite ?orb_false_r, ?orb_true_r; cbn [andb orb];
    rewrite ?orb_false_r, ?orb_true_r; try reflexivity.
Qed.

(** A latched machine with the load off: only the two counters move. *)
Definition latched (m : machine) : Prop :=
  undervoltage_protection_triggered m = true /\ VBAT_EN_PIN m = LOW.

Lemma tick_latched m adc :
  latched m ->
  latched (tick m adc) /\ trace (tick m adc) = trace m /\
  wake_state (tick m adc) = wake_state m /\ ADEN (tick m adc) = ADEN m /\
  VDIV_EN_PIN (tick m adc) = VDIV_EN_PIN m.
Proof.
  intros [Ht Hp]. unfold latched.
  tick_cases; rewrite ?Ht, ?Hp in *; try absurd_path; repeat split; assumption.
Qed.

Lemma run_latched m ticks :
  latched m ->
  latched (run m ticks) /\ trace (run m ticks) = trace m /\
  wake_state (run m ticks) = wake_state m /\ ADEN (run m ticks) = ADEN m /\
  VDIV_EN_PIN (run m ticks) = VDIV_EN_PIN m.
Proof.
  revert m. induction ticks as [|adc ticks IH]; intros m H.
  - repeat split; try reflexivity; apply H.
  - rewrite run_cons.
    destruct (tick_latched m adc H) as (H1 & <- & <- & <- & <-). now apply IH.
Qed.

Lemma tick_detected m adc :
  undervoltage_detected m adc = true ->
  latched (tick m adc) /\
  trace (tick m adc) =
    trace m ++ [Ev_read_battery_voltage (battery_sample adc); Ev_enable_load false].
Proof.
  unfold undervoltage_detected, measurement_due, latched. rewrite load_on_pin.
  intros H. prop_of_bool.
  tick_cases; try absurd_path;
    rewrite <- ?app_assoc; cbn [app]; repeat split; reflexivity.
Qed.

(** ** Reachable machines *)

(** State tag, load pin and latch fit together. *)
Definition consistent (m : machine) : Prop :=
  (wake_state m = STATE_LOAD_ON \/ wake_state m = STATE_LOAD_OFF) /\
  (undervoltage_protection_triggered m = true -> VBAT_EN_PIN m = LOW) /\
  (undervoltage_protection_triggered m = false ->
   (wake_state m = STATE_LOAD_ON <-> VBAT_EN_PIN m = HIGH)) /\
  ADEN m = false /\ VDIV_EN_PIN m = HIGH.

Lemma boot_consistent b : consistent (boot b).
Proof.
  rewrite boot_eq. unfold consistent. fields.
  repeat split; auto; discriminate.
Qed.

Lemma tick_consistent m adc : consistent m -> consistent (tick m adc).
Proof.
  unfold consistent, STATE_LOAD_ON, STATE_LOAD_OFF, HIGH, LOW.
  intros (Hs & Hl & Hu & Ha & Hd).
  tick_cases; prop_of_bool; repeat split; intros;
    try reflexivity; try assumption; try discriminate; try lia;
    try (apply Hl; assumption); try (apply Hu; assumption);
    try solve [destruct (undervoltage_protection_triggered m);
               [ specialize (Hl eq_refl) | specialize (Hu eq_refl) ];
               intuition (congruence || lia)].
Qed.

Lemma run_consistent m ticks : consistent m -> consistent (run m ticks).
Proof.
  revert m. induction ticks as [|adc ticks IH]; intros m H; [exact H|].
  rewrite run_cons. apply IH. now apply tick_consistent.
Qed.

Lemma reachable_consistent b ticks : consistent (run (boot b) ticks).
Proof. apply run_consistent, boot_consistent. Qed.

(** ** The undervoltage latch *)

(** C1: once the guard has measured an undervoltage (load on, cadence
    reached, averaged sample strictly under the threshold), the latch is set
    and the load is off at the end of that tick, and after any further ticks,
    whatever the ADC returns then: the latch is still set, the load is still
    off, and no call has reached the load switch or the ADC since. *)
Theorem undervoltage_latch_is_permanent
    (m : machine) (adc : tick_input) (later : list tick_input)
    (Hdetected : undervoltage_detected m adc = true) :
  undervoltage_protection_triggered (tick m adc) = true /\
  load_on (tick m adc) = false /\
  undervoltage_protection_triggered (run (tick m adc) later) = true /\
  load_on (run (tick m adc) later) = false /\
  trace (run (tick m adc) later) =
    trace m ++ [Ev_read_battery_voltage (battery_sample adc); Ev_enable_load false].
Proof.
  destruct (tick_detected m adc Hdetected) as [Hl Ht].
  destruct (run_latched _ later Hl) as ([Hl1 Hl2] & Htr & _).
  rewrite !load_on_pin. destruct Hl as [Hl3 Hl4].
  repeat split; try assumption. now rewrite Htr.
Qed.

Definition board_12V_full : board :=
  mk_board (fun _ => 0xFF) HIGH LOW.

Definition adc_constant (v : Z) : tick_input := fun _ => v.

Lemma undervoltage_latch_is_permanent_witness :
  let m := run (boot board_12V_full) (repeat (adc_constant 800) 109) in
  undervoltage_protection_triggered (tick m (adc_constant 700)) = true /\
  load_on (tick m (adc_constant 700)) = false /\
  undervoltage_protection_triggered
    (run (tick m (adc_constant 700)) (repeat (adc_constant 1023) 300)) = true /\
  load_on (run (tick m (adc_constant 700)) (repeat (adc_constant 1023) 300)) = false /\
  trace (run (tick m (adc_constant 700)) (repeat (adc_constant 1023) 300)) =
    trace m ++ [Ev_read_battery_voltage (battery_sample (adc_constant 700));
                Ev_enable_load false].
Proof.
  apply (undervoltage_latch_is_permanent
           (run (boot board_12V_full) (repeat (adc_constant 800) 109))
           (adc_constant 700) (repeat (adc_constant 1023) 300)).
  vm_compute. reflexivity.
Defined.

(** C10: in a run from [setup()], once the latch is set no further call of
    [read_battery_voltage] (nor of [enable_load]) is made, and the ADC and
    the voltage divider stay switched off. *)
Theorem no_measurement_after_latch
    (b : board) (ticks later : list tick_input)
    (Hlatch : undervoltage_protection_triggered (run (boot b) ticks) = true) :
  trace (run (boot b) (ticks ++ later)) = trace (run (boot b) ticks) /\
  ADEN (run (boot b) (ticks ++ later)) = false /\
  VDIV_EN_PIN (run (boot b) (ticks ++ later)) = HIGH /\
  load_on (run (boot b) (ticks ++ later)) = false.
Proof.
  destruct (reachable_consistent b ticks) as (_ & Hoff & _ & Ha & Hd).
  assert (Hl : latched (run (boot b) ticks)) by (split; auto).
  rewrite run_app, load_on_pin.
  destruct (run_latched _ later Hl) as ([_ Hp] & -> & _ & -> & ->).
  repeat split; assumption.
Qed.

Lemma no_measurement_after_latch_witness :
  let ticks := repeat (adc_constant 800) 109 ++ [adc_constant 700] in
  let later := repeat (adc_constant 0) 500 in
  trace (run (boot board_12V_full) (ticks ++ later)) =
    trace (run (boot board_12V_full) ticks) /\
  ADEN (run (boot board_12V_full) (ticks ++ later)) = false /\
  VDIV_EN_PIN (run (boot board_12V_full) (ticks ++ later)) = HIGH /\
  load_on (run (boot board_12V_full) (ticks ++ later)) = false.
Proof.
  apply (no_measurement_after_latch board_12V_full
           (repeat (adc_constant 800) 109 ++ [adc_constant 700])
           (repeat (adc_constant 0) 500)).
  vm_compute. reflexivity.
Defined.

(** ** State tag and actuator *)

(** C9: after [setup()] and after every tick of a run, while the latch is
    clear the state tag is [STATE_LOAD_ON] exactly when the load is enabled
    (and the tag is one of the two enumerators). *)
Theorem wake_state_agrees_with_load
    (b : board) (ticks : list tick_input)
    (Hclear : undervoltage_protection_triggered (run (boot b) ticks) = false) :
  (wake_state (run (boot b) ticks) = STATE_LOAD_ON <->
   load_on (run (boot b) ticks) = true) /\
  (wake_state (run (boot b) ticks) = STATE_LOAD_OFF <->
   load_on (run (boot b) ticks) = false).
Proof.
  destruct (reachable_consistent b ticks) as (Hs & _ & Hu & _).
  specialize (Hu Hclear). rewrite load_on_pin.
  unfold STATE_LOAD_ON, STATE_LOAD_OFF, HIGH in *.
  destruct (VBAT_EN_PIN (run (boot b) ticks)); split; split; intros H;
    try reflexivity; try tauto; try (destruct Hs; [tauto | lia]);
    try (destruct Hs as [Hs|Hs]; rewrite Hs in *; try reflexivity;
         try discriminate; intuition discriminate).
Qed.

Lemma wake_state_agrees_with_load_witness :
  let ticks := repeat (adc_constant 800) (Z.to_nat 7031) in
  (wake_state (run (boot board_12V_full) ticks) = STATE_LOAD_ON <->
   load_on (run (boot board_12V_full) ticks) = true) /\
  (wake_state (run (boot board_12V_full) ticks) = STATE_LOAD_OFF <->
   load_on (run (boot board_12V_full) ticks) = false).
Proof.
  apply (wake_state_agrees_with_load board_12V_full (repeat (adc_constant 800) (Z.to_nat 7031))).
  vm_compute. reflexivity.
Defined.

(** After the latch the two do diverge: the tag keeps saying [STATE_LOAD_ON]
    while the load is off. *)
Lemma wake_state_diverges_after_latch :
  let m := run (boot board_12V_full)
             (repeat (adc_constant 800) 109 ++ [adc_constant 700]) in
  undervoltage_protection_triggered m = true /\
  wake_state m = STATE_LOAD_ON /\ load_on m = false.
Proof. vm_compute. repeat split. Qed.

(** C7: the [default:] label, taken when the tag is neither enumerator, the
    load timing is activated and the latch is clear, sets the tag to
    [STATE_LOAD_OFF] and changes nothing else: no [enable_load] call, same
    pin level, same counters, same latch. *)
Theorem default_branch_only_sets_tag
    (m : machine)
    (Hfull : all_features_activated m = true)
    (Hclear : undervoltage_protection_triggered m = false)
    (Hnot_on : wake_state m <> STATE_LOAD_ON)
    (Hnot_off : wake_state m <> STATE_LOAD_OFF) :
  exec loop_load_timing m = set_wake_state STATE_LOAD_OFF m /\
  wake_state (exec loop_load_timing m) = STATE_LOAD_OFF /\
  trace (exec loop_load_timing m) = trace m /\
  VBAT_EN_PIN (exec loop_load_timing m) = VBAT_EN_PIN m /\
  wakeup_count_load_feature (exec loop_load_timing m) = wakeup_count_load_feature m /\
  wakeup_count_undervoltage_protection (exec loop_load_timing m) =
    wakeup_count_undervoltage_protection m /\
  undervoltage_protection_triggered (exec loop_load_timing m) = false.
Proof.
  rewrite exec_loop_load_timing, Hfull, Hclear. cbn [andb negb].
  apply Z.eqb_neq in Hnot_on, Hnot_off. rewrite Hnot_on, Hnot_off.
  fields. repeat split. assumption.
Qed.

Definition corrupted_tag : machine :=
  set_wake_state 2 (boot board_12V_full).

Lemma default_branch_only_sets_tag_witness :
  exec loop_load_timing corrupted_tag = set_wake_state STATE_LOAD_OFF corrupted_tag /\
  wake_state (exec loop_load_timing corrupted_tag) = STATE_LOAD_OFF /\
  trace (exec loop_load_timing corrupted_tag) = trace corrupted_tag /\
  VBAT_EN_PIN (exec loop_load_timing corrupted_tag) = VBAT_EN_PIN corrupted_tag /\
  wakeup_count_load_feature (exec loop_load_timing corrupted_tag) =
    wakeup_count_load_feature corrupted_tag /\
  wakeup_count_undervoltage_protection (exec loop_load_timing corrupted_tag) =
    wakeup_count_undervoltage_protection corrupted_tag /\
  undervoltage_protection_triggered (exec loop_load_timing corrupted_tag) = false.
Proof.
  apply (default_branch_only_sets_tag corrupted_tag); vm_compute;
    try reflexivity; discriminate.
Defined.

(** ** Startup configuration *)

(** [setup()] up to and including the three selections (lines 306-324). *)
Definition setup_select (b : board) : M unit :=
  initialize_gpios ;;
  enable_adc false ;;
  modify (set_clock_calibration (read_clock_calibration b)) ;;
  modify (set_all_features_activated (get_feature_selection b)) ;;
  let _12_24V_selection := get_12V_24V_selection b in
  modify (set_timing_cycles_load_on
    (if Bool.eqb _12_24V_selection true
     then TIMING_CYCLES_LOAD_ON_12V else TIMING_CYCLES_LOAD_ON_24V)) ;;
  modify (set_timing_cycles_load_off
    (if Bool.eqb _12_24V_selection true
     then TIMING_CYCLES_LOAD_OFF_12V else TIMING_CYCLES_LOAD_OFF_24V)) ;;
  modify (set_undervoltage_adc_threshold
    (if Bool.eqb _12_24V_selection true
     then ADC_BATTERY_THRESHOLD_12v else ADC_BATTERY_THRESHOLD_24v)).

(** The calibration [if] of [setup()] (lines 326-330). *)
Definition setup_calibrate (b : board) : M unit :=
  if clock_calibration_present b then
    c <- gets clock_calibration ;;
    t_on <- gets timing_cycles_load_on ;;
    modify (set_timing_cycles_load_on (u16 (apply_clock_calibration c t_on))) ;;
    c <- gets clock_calibration ;;
    t_off <- gets timing_cycles_load_off ;;
    modify (set_timing_cycles_load_off (u16 (apply_clock_calibration c t_off)))
  else ret tt.

(** [setup()] is these two steps followed by [enable_load(true)]. *)
Lemma setup_stages b m :
  setup b m = (setup_select b ;; setup_calibrate b ;; enable_load true) m.
Proof.
  unfold setup, setup_select, setup_calibrate, initialize_gpios.
  destruct (clock_calibration_present b); destruct m;
    cbv [bind gets modify ret enable_load enable_adc enable_voltage_divider
         set_VBAT_EN_PIN set_VDIV_EN_PIN set_ADEN set_clock_calibration
         set_all_features_activated set_timing_cycles_load_on
         set_timing_cycles_load_off set_undervoltage_adc_threshold record_call
         VBAT_EN_PIN VDIV_EN_PIN ADEN clock_calibration all_features_activated
         timing_cycles_load_on timing_cycles_load_off undervoltage_adc_threshold
         wakeup_count_load_feature wakeup_count_undervoltage_protection
         undervoltage_protection_triggered wake_state trace];
    reflexivity.
Qed.

Lemma setup_select_stores b m :
  timing_cycles_load_on (exec (setup_select b) m) =
    (if get_12V_24V_selection b then 7031 else 8789) /\
  timing_cycles_load_off (exec (setup_select b) m) =
    (if get_12V_24V_selection b then 3516 else 1758) /\
  undervoltage_adc_threshold (exec (setup_select b) m) =
    (if get_12V_24V_selection b then 721 else 726).
Proof.
  unfold setup_select, initialize_gpios.
  destruct (get_12V_24V_selection b); cbn [Bool.eqb]; fields; repeat split.
Qed.

Lemma setup_calibrate_stores b m :
  undervoltage_adc_threshold (exec (setup_calibrate b) m) =
    undervoltage_adc_threshold m /\
  (clock_calibration_present b = false -> exec (setup_calibrate b) m = m) /\
  (clock_calibration_present b = true ->
   timing_cycles_load_on (exec (setup_calibrate b) m) =
     u16 (apply_clock_calibration (clock_calibration m) (timing_cycles_load_on m)) /\
   timing_cycles_load_off (exec (setup_calibrate b) m) =
     u16 (apply_clock_calibration (clock_calibration m) (timing_cycles_load_off m))).
Proof.
  unfold setup_calibrate.
  destruct (clock_calibration_present b); fields;
    repeat split; intros; try reflexivity; discriminate.
Qed.

Definition calibrated_eeprom (a : Z) : Z :=
  match a with
  | 0 => 0x00 | 1 => 0x02 | 2 => 0x22 | 3 => 0xE0
  | _ => 0xCD
  end.

Definition board_12V_calibrated : board :=
  mk_board calibrated_eeprom HIGH LOW.

(** C4, as stated, fails: with the calibration marker present [setup()]
    stores each tick count twice, the nominal value first and the
    calibrated one after it. *)
Lemma setup_stores_tick_counts_twice :
  let m1 := exec (setup_select board_12V_calibrated) power_on in
  let m2 := exec (setup_calibrate board_12V_calibrated) m1 in
  clock_calibration_present board_12V_calibrated = true /\
  boot board_12V_calibrated = exec (enable_load true) m2 /\
  timing_cycles_load_on power_on = 0 /\
  timing_cycles_load_on m1 = 7031 /\
  timing_cycles_load_on m2 = 7690 /\
  timing_cycles_load_off power_on = 0 /\
  timing_cycles_load_off m1 = 3516 /\
  timing_cycles_load_off m2 = 3845 /\
  timing_cycles_load_on m1 <> timing_cycles_load_on (boot board_12V_calibrated) /\
  timing_cycles_load_off m1 <> timing_cycles_load_off (boot board_12V_calibrated).
Proof.
  vm_compute. repeat split; discriminate.
Qed.

(** C4 (amended): [setup()] picks 7031 / 3516 / 721 when the selector reads
    12 V and 8789 / 1758 / 726 otherwise; with the calibration marker present
    the two tick counts are what [apply_clock_calibration] returns for them
    (an accepted constant [c] turns [n] into [c * n / 128000]), the threshold
    is never calibrated, and no tick changes any of the three.  The
    threshold is stored once; each tick count is stored with its nominal
    value first and, only when the marker is present, a second time with
    the calibrated value; all of this happens in [setup()]. *)
Theorem setup_configuration (b : board) :
  undervoltage_adc_threshold (boot b) =
    (if get_12V_24V_selection b then 721 else 726) /\
  timing_cycles_load_on (boot b) =
    (let nominal := if get_12V_24V_selection b then 7031 else 8789 in
     if clock_calibration_present b
     then apply_clock_calibration (read_clock_calibration b) nominal
     else nominal) /\
  timing_cycles_load_off (boot b) =
    (let nominal := if get_12V_24V_selection b then 3516 else 1758 in
     if clock_calibration_present b
     then apply_clock_calibration (read_clock_calibration b) nominal
     else nominal) /\
  (clock_calibration_present b = true ->
   98000 <= read_clock_calibration b <= 158000 ->
   timing_cycles_load_on (boot b) =
     read_clock_calibration b * (if get_12V_24V_selection b then 7031 else 8789)
     / 128000 /\
   timing_cycles_load_off (boot b) =
     read_clock_calibration b * (if get_12V_24V_selection b then 3516 else 1758)
     / 128000) /\
  (forall ticks : list tick_input,
     timing_cycles_load_on (run (boot b) ticks) = timing_cycles_load_on (boot b) /\
     timing_cycles_load_off (run (boot b) ticks) = timing_cycles_load_off (boot b) /\
     undervoltage_adc_threshold (run (boot b) ticks) =
       undervoltage_adc_threshold (boot b)) /\
  (forall m, setup b m =
     (setup_select b ;; setup_calibrate b ;; enable_load true) m) /\
  (forall m,
     timing_cycles_load_on (exec (setup_select b) m) =
       (if get_12V_24V_selection b then 7031 else 8789) /\
     timing_cycles_load_off (exec (setup_select b) m) =
       (if get_12V_24V_selection b then 3516 else 1758) /\
     undervoltage_adc_threshold (exec (setup_select b) m) =
       (if get_12V_24V_selection b then 721 else 726)) /\
  (forall m,
     undervoltage_adc_threshold (exec (setup_calibrate b) m) =
       undervoltage_adc_threshold m /\
     (clock_calibration_present b = false -> exec (setup_calibrate b) m = m) /\
     (clock_calibration_present b = true ->
      timing_cycles_load_on (exec (setup_calibrate b) m) =
        u16 (apply_clock_calibration (clock_calibration m)
               (timing_cycles_load_on m)) /\
      timing_cycles_load_off (exec (setup_calibrate b) m) =
        u16 (apply_clock_calibration (clock_calibration m)
               (timing_cycles_load_off m)))) /\
  (forall m,
     timing_cycles_load_on (exec (enable_load true) m) = timing_cycles_load_on m /\
     timing_cycles_load_off (exec (enable_load true) m) = timing_cycles_load_off m /\
     undervoltage_adc_threshold (exec (enable_load true) m) =
       undervoltage_adc_threshold m).
Proof.
  split; [|split; [|split; [|split; [|split; [|split; [|split; [|split]]]]]]].
  - rewrite boot_eq. reflexivity.
  - rewrite boot_eq. reflexivity.
  - rewrite boot_eq. reflexivity.
  - intros Hp Hc. rewrite boot_eq. fields. rewrite Hp.
    unfold nominal_on, nominal_off, TIMING_CYCLES_LOAD_ON_12V,
      TIMING_CYCLES_LOAD_ON_24V, TIMING_CYCLES_LOAD_OFF_12V,
      TIMING_CYCLES_LOAD_OFF_24V.
    destruct (get_12V_24V_selection b);
      split; apply apply_clock_calibration_exact; try assumption; lia.
  - intros ticks. destruct (run_config (boot b) ticks) as (_ & _ & -> & -> & ->).
    repeat split.
  - apply setup_stages.
  - apply setup_select_stores.
  - apply setup_calibrate_stores.
  - intros m. fields. repeat split.
Qed.

Lemma setup_configuration_witness :
  read_clock_calibration board_12V_calibrated = 140000 /\
  timing_cycles_load_on (boot board_12V_calibrated) = 7690 /\
  timing_cycles_load_off (boot board_12V_calibrated) = 3845 /\
  undervoltage_adc_threshold (boot board_12V_calibrated) = 721.
Proof.
  destruct (setup_configuration board_12V_calibrated) as (Hth & _ & _ & Hcal & _).
  assert (Hr : 98000 <= read_clock_calibration board_12V_calibrated <= 158000)
    by (vm_compute; split; discriminate).
  destruct (Hcal eq_refl Hr) as [Hon Hoff].
  split; [reflexivity|]. split; [rewrite Hon; reflexivity|].
  split; [rewrite Hoff; reflexivity | rewrite Hth; reflexivity].
Defined.

(** C8: when the four calibration bytes all read 0xFF, [read_clock_calibration]
    returns 0, [apply_clock_calibration] discards it, and [setup()] keeps the
    nominal tick counts although the marker byte matches. *)
Theorem erased_calibration_is_identity
    (b : board)
    (H3 : EEPROM_read b EEPROM_ADDR_CLOCK_CALIB_3_MSB = 0xFF)
    (H2 : EEPROM_read b EEPROM_ADDR_CLOCK_CALIB_2 = 0xFF)
    (H1 : EEPROM_read b EEPROM_ADDR_CLOCK_CALIB_1 = 0xFF)
    (H0 : EEPROM_read b EEPROM_ADDR_CLOCK_CALIB_0_LSB = 0xFF)
    (Hmarker : clock_calibration_present b = true) :
  read_clock_calibration b = 0 /\
  (forall n, apply_clock_calibration (read_clock_calibration b) n = n) /\
  timing_cycles_load_on (boot b) =
    (if get_12V_24V_selection b then 7031 else 8789) /\
  timing_cycles_load_off (boot b) =
    (if get_12V_24V_selection b then 3516 else 1758).
Proof.
  assert (Hread : read_clock_calibration b = 0).
  { unfold read_clock_calibration. rewrite H3, H2, H1, H0. reflexivity. }
  assert (Hid : forall n, apply_clock_calibration 0 n = n).
  { intros n. apply apply_clock_calibration_discarded. lia. }
  rewrite boot_eq, Hread. fields. rewrite Hmarker, !Hid.
  repeat split; try reflexivity; apply Hid.
Qed.

Definition erased_eeprom_with_marker (a : Z) : Z :=
  if a =? EEPROM_ADDR_CLOCK_CALIB_MAGIC_NUMBER
  then EEPROM_CLOCK_CALIB_MAGIC_NUMBER else 0xFF.

Definition board_erased_calibration : board :=
  mk_board erased_eeprom_with_marker HIGH LOW.

Lemma erased_calibration_is_identity_witness :
  read_clock_calibration board_erased_calibration = 0 /\
  (forall n, apply_clock_calibration
               (read_clock_calibration board_erased_calibration) n = n) /\
  timing_cycles_load_on (boot board_erased_calibration) = 7031 /\
  timing_cycles_load_off (boot board_erased_calibration) = 3516.
Proof.
  apply (erased_calibration_is_identity board_erased_calibration); reflexivity.
Defined.

(** ** Measurement cadence *)

(** The results of the [read_battery_voltage] calls in a trace. *)
Fixpoint samples (t : list event) : list Z :=
  match t with
  | [] => []
  | Ev_read_battery_voltage v :: t' => v :: samples t'
  | Ev_enable_load _ :: t' => samples t'
  end.

(** The arguments of the [enable_load] calls in a trace. *)
Fixpoint load_switchings (t : list event) : list bool :=
  match t with
  | [] => []
  | Ev_enable_load e :: t' => e :: load_switchings t'
  | Ev_read_battery_voltage _ :: t' => load_switchings t'
  end.

Lemma samples_app t1 t2 : samples (t1 ++ t2) = samples t1 ++ samples t2.
Proof.
  induction t1 as [|[e|v] t1 IH]; cbn [samples app]; [reflexivity|assumption|].
  now rewrite IH.
Qed.

Lemma load_switchings_app t1 t2 :
  load_switchings (t1 ++ t2) = load_switchings t1 ++ load_switchings t2.
Proof.
  induction t1 as [|[e|v] t1 IH]; cbn [load_switchings app]; [reflexivity| |assumption].
  now rewrite IH.
Qed.

Lemma tick_cadence m adc :
  wakeup_count_undervoltage_protection (tick m adc) =
    (if measurement_due m then 0
     else u16 (wakeup_count_undervoltage_protection m + 1)) /\
  samples (trace (tick m adc)) =
    samples (trace m) ++ (if measurement_due m then [battery_sample adc] else []).
Proof.
  unfold measurement_due. rewrite load_on_pin.
  tick_cases; rewrite ?samples_app; cbn [samples app];
    rewrite ?app_nil_r; split; reflexivity.
Qed.

(** On the measuring path the counter is cleared first: the measurement and
    the comparison run on the machine whose counter is already 0. *)
Lemma measurement_after_reset adc m :
  VBAT_EN_PIN m = HIGH ->
  TIMING_CYCLES_BATTERY_MEASUREMENT <= wakeup_count_undervoltage_protection m ->
  loop_undervoltage_protection adc m =
  (v <- read_battery_voltage adc ;;
   threshold <- gets undervoltage_adc_threshold ;;
   if v <? threshold then
     enable_load false ;;
     modify (set_undervoltage_protection_triggered true)
   else ret tt) (set_wakeup_count_undervoltage_protection 0 m).
Proof.
  intros Hp Hc. apply Z.geb_le in Hc.
  unfold loop_undervoltage_protection. unfold bind at 1 2.
  unfold is_load_enabled. fields. rewrite Hp, Hc. reflexivity.
Qed.

Lemma quiet_period ticks : forall m,
  0 <= wakeup_count_undervoltage_protection m ->
  wakeup_count_undervoltage_protection m + Z.of_nat (length ticks)
    < TIMING_CYCLES_BATTERY_MEASUREMENT ->
  wakeup_count_undervoltage_protection (run m ticks) =
    wakeup_count_undervoltage_protection m + Z.of_nat (length ticks) /\
  samples (trace (run m ticks)) = samples (trace m).
Proof.
  unfold TIMING_CYCLES_BATTERY_MEASUREMENT.
  induction ticks as [|adc ticks IH]; intros m H0 Hlt.
  - cbn [length run fold_left Z.of_nat]. split; [lia | reflexivity].
  - rewrite run_cons. cbn [length] in *. rewrite Nat2Z.inj_succ in *.
    destruct (tick_cadence m adc) as [Hc Hs].
    assert (Hq : measurement_due m = false).
    { unfold measurement_due, TIMING_CYCLES_BATTERY_MEASUREMENT.
      rewrite u16_small by lia. apply andb_false_iff. right.
      rewrite Z.geb_leb. apply Z.leb_gt. lia. }
    rewrite Hq in Hc, Hs. rewrite u16_small in Hc by lia.
    rewrite app_nil_r in Hs.
    destruct (IH (tick m adc)) as [IH1 IH2]; try lia.
    rewrite IH1, IH2, Hc, Hs. split; [lia | reflexivity].
Qed.

(** C5: the cadence counter goes up by one per tick; a tick measures exactly
    when the load is enabled and the incremented counter has reached 110;
    on that path the counter is cleared before [read_battery_voltage] runs
    and is 0 after the tick whatever the sample was.  So after a reset no
    measurement happens during the next 109 ticks, and the 110th tick
    measures if the load is on then. *)
Theorem battery_measurement_cadence
    (m : machine) (adc : tick_input) (ticks : list tick_input) :
  wakeup_count_undervoltage_protection (tick m adc) =
    (if measurement_due m then 0
     else u16 (wakeup_count_undervoltage_protection m + 1)) /\
  samples (trace (tick m adc)) =
    samples (trace m) ++ (if measurement_due m then [battery_sample adc] else []) /\
  (VBAT_EN_PIN m = HIGH ->
   TIMING_CYCLES_BATTERY_MEASUREMENT <= wakeup_count_undervoltage_protection m ->
   loop_undervoltage_protection adc m =
   (v <- read_battery_voltage adc ;;
    threshold <- gets undervoltage_adc_threshold ;;
    if v <? threshold then
      enable_load false ;;
      modify (set_undervoltage_protection_triggered true)
    else ret tt) (set_wakeup_count_undervoltage_protection 0 m)) /\
  (wakeup_count_undervoltage_protection m = 0 ->
   (length ticks < 110)%nat ->
   samples (trace (run m ticks)) = samples (trace m)) /\
  (wakeup_count_undervoltage_protection m = 0 ->
   length ticks = 109%nat ->
   load_on (run m ticks) = true ->
   samples (trace (run m (ticks ++ [adc]))) = samples (trace m) ++ [battery_sample adc] /\
   wakeup_count_undervoltage_protection (run m (ticks ++ [adc])) = 0).
Proof.
  split; [apply tick_cadence|]. split; [apply tick_cadence|].
  split; [apply measurement_after_reset|]. split.
  - intros H0 Hlen.
    apply (quiet_period ticks m); unfold TIMING_CYCLES_BATTERY_MEASUREMENT; lia.
  - intros H0 Hlen Hon.
    destruct (quiet_period ticks m) as [Hc Hs];
      unfold TIMING_CYCLES_BATTERY_MEASUREMENT; try lia.
    rewrite run_snoc.
    destruct (tick_cadence (run m ticks) adc) as [Hc' Hs'].
    assert (Hdue : measurement_due (run m ticks) = true).
    { unfold measurement_due. rewrite Hon, Hc, H0, Hlen. reflexivity. }
    rewrite Hdue in Hc', Hs'. rewrite Hc', Hs', Hs. split; reflexivity.
Qed.

Definition measuring_board : machine := boot board_12V_full.

Lemma battery_measurement_cadence_witness :
  samples (trace (run measuring_board (repeat (adc_constant 800) 109))) =
    samples (trace measuring_board) /\
  samples (trace (run measuring_board
                    (repeat (adc_constant 800) 109 ++ [adc_constant 700]))) =
    samples (trace measuring_board) ++ [battery_sample (adc_constant 700)] /\
  wakeup_count_undervoltage_protection
    (run measuring_board (repeat (adc_constant 800) 109 ++ [adc_constant 700])) = 0.
Proof.
  destruct (battery_measurement_cadence measuring_board (adc_constant 700)
              (repeat (adc_constant 800) 109)) as (_ & _ & _ & Hquiet & Hnext).
  split.
  - apply Hquiet; [reflexivity | vm_compute; lia].
  - apply Hnext; [reflexivity | reflexivity | vm_compute; reflexivity].
Defined.

(** ** Undervoltage-only mode *)

Definition guard_only (m : machine) : Prop :=
  all_features_activated m = false /\
  wake_state m = STATE_LOAD_ON /\
  VBAT_EN_PIN m = negb (undervoltage_protection_triggered m) /\
  load_switchings (trace m) =
    [false; true] ++ (if undervoltage_protection_triggered m then [false] else []).

Lemma tick_guard_only m adc : guard_only m -> guard_only (tick m adc).
Proof.
  unfold guard_only. intros (Hf & Hs & Hp & Ht).
  tick_cases; rewrite ?load_switchings_app; cbn [load_switchings];
    rewrite ?app_nil_r; try absurd_path;
    repeat split; try assumption.
  - rewrite Ht. prop_of_bool. rewrite Hp in *.
    destruct (undervoltage_protection_triggered m); [discriminate | reflexivity].
Qed.

Lemma run_guard_only m ticks : guard_only m -> guard_only (run m ticks).
Proof.
  revert m. induction ticks as [|adc ticks IH]; intros m H; [exact H|].
  rewrite run_cons. apply IH. now apply tick_guard_only.
Qed.

Lemma tick_without_load_timing m adc :
  all_features_activated m = false ->
  exec loop_load_timing m = m /\
  tick m adc = exec (loop_undervoltage_protection adc) (exec loop_wakeup m).
Proof.
  intros Hf. split.
  - rewrite exec_loop_load_timing, Hf. reflexivity.
  - rewrite tick_blocks, exec_loop_load_timing.
    rewrite exec_loop_undervoltage_protection, exec_loop_wakeup.
    unfold measured. fields. repeat (branch; fields); try reflexivity; absurd_path.
Qed.

(** C6: with the feature selector at "undervoltage protection only", the
    load-timing block leaves every machine as it found it, so a tick is the
    wake-up counting followed by the guard; in a run from [setup()] the tag
    stays [STATE_LOAD_ON], the load is on exactly as long as the latch is
    clear, and the only [enable_load] calls after the two of [setup()] are
    the guard's single [enable_load(false)]. *)
Theorem undervoltage_only_mode
    (b : board) (ticks : list tick_input)
    (Hmode : get_feature_selection b = false) :
  all_features_activated (run (boot b) ticks) = false /\
  (forall m adc, all_features_activated m = false ->
     exec loop_load_timing m = m /\
     tick m adc = exec (loop_undervoltage_protection adc) (exec loop_wakeup m)) /\
  wake_state (run (boot b) ticks) = STATE_LOAD_ON /\
  load_on (run (boot b) ticks) =
    negb (undervoltage_protection_triggered (run (boot b) ticks)) /\
  load_switchings (trace (run (boot b) ticks)) =
    [false; true] ++
    (if undervoltage_protection_triggered (run (boot b) ticks) then [false] else []).
Proof.
  assert (H0 : guard_only (boot b)).
  { rewrite boot_eq. unfold guard_only. fields. rewrite Hmode. repeat split. }
  destruct (run_guard_only _ ticks H0) as (Hf & Hs & Hp & Ht).
  rewrite load_on_pin.
  split; [assumption|]. split; [apply tick_without_load_timing|].
  repeat split; assumption.
Qed.

Definition board_12V_guard_only : board :=
  mk_board (fun _ => 0xFF) HIGH HIGH.

Lemma undervoltage_only_mode_witness :
  let ticks := repeat (adc_constant 800) (Z.to_nat 7031) in
  wake_state (run (boot board_12V_guard_only) ticks) = STATE_LOAD_ON /\
  load_on (run (boot board_12V_guard_only) ticks) =
    negb (undervoltage_protection_triggered (run (boot board_12V_guard_only) ticks)) /\
  load_switchings (trace (run (boot board_12V_guard_only) ticks)) =
    [false; true] ++
    (if undervoltage_protection_triggered (run (boot board_12V_guard_only) ticks)
     then [false] else []).
Proof.
  intros ticks.
  destruct (undervoltage_only_mode board_12V_guard_only ticks eq_refl)
    as (_ & _ & Hs & Hp & Ht).
  exact (conj Hs (conj Hp Ht)).
Defined.

(** ** The duty cycle *)

(** The load-timing block in the words of its two [case] labels: what it
    does to a machine whose tag is [STATE_LOAD_ON] or [STATE_LOAD_OFF]. *)
Definition switch_load_off (m : machine) : machine :=
  set_wake_state STATE_LOAD_OFF
    (exec (enable_load false) (set_wakeup_count_load_feature 0 m)).

Definition switch_load_on (m : machine) : machine :=
  set_wake_state STATE_LOAD_ON
    (exec (enable_load true) (set_wakeup_count_load_feature 0 m)).

Lemma load_timing_steps m :
  all_features_activated m = true ->
  undervoltage_protection_triggered m = false ->
  (wake_state m = STATE_LOAD_ON ->
   exec loop_load_timing m =
     if wakeup_count_load_feature m >=? timing_cycles_load_on m
     then switch_load_off m else m) /\
  (wake_state m = STATE_LOAD_OFF ->
   exec loop_load_timing m =
     if wakeup_count_load_feature m >=? timing_cycles_load_off m
     then switch_load_on m else m).
Proof.
  intros Hf Hc. rewrite exec_loop_load_timing, Hf, Hc. cbn [andb negb].
  split; intros ->; reflexivity.
Qed.

Lemma switch_load_off_fields m :
  wakeup_count_load_feature (switch_load_off m) = 0 /\
  load_on (switch_load_off m) = false /\
  wake_state (switch_load_off m) = STATE_LOAD_OFF /\
  trace (switch_load_off m) = trace m ++ [Ev_enable_load false].
Proof. rewrite load_on_pin. unfold switch_load_off. fields. repeat split. Qed.

Lemma switch_load_on_fields m :
  wakeup_count_load_feature (switch_load_on m) = 0 /\
  load_on (switch_load_on m) = true /\
  wake_state (switch_load_on m) = STATE_LOAD_ON /\
  trace (switch_load_on m) = trace m ++ [Ev_enable_load true].
Proof. rewrite load_on_pin. unfold switch_load_on. fields. repeat split. Qed.

(** A sample that does not trip the guard at threshold [th]. *)
Definition healthy_sample (th : Z) (adc : tick_input) : bool :=
  th <=? battery_sample adc.

(** Unlatched full-feature machine, [k] ticks into its on (off) phase. *)
Definition in_on_phase (m : machine) (k : Z) : Prop :=
  all_features_activated m = true /\
  undervoltage_protection_triggered m = false /\
  wake_state m = STATE_LOAD_ON /\ VBAT_EN_PIN m = HIGH /\
  wakeup_count_load_feature m = k.

Definition in_off_phase (m : machine) (k : Z) : Prop :=
  all_features_activated m = true /\
  undervoltage_protection_triggered m = false /\
  wake_state m = STATE_LOAD_OFF /\ VBAT_EN_PIN m = LOW /\
  wakeup_count_load_feature m = k.

Lemma on_phase_tick m k adc :
  in_on_phase m k -> 0 <= k -> k + 1 < timing_cycles_load_on m ->
  timing_cycles_load_on m <= 2 ^ 16 ->
  healthy_sample (undervoltage_adc_threshold m) adc = true ->
  in_on_phase (tick m adc) (k + 1).
Proof.
  unfold in_on_phase, healthy_sample, STATE_LOAD_ON, STATE_LOAD_OFF, HIGH, LOW.
  intros (Hf & Hc & Hs & Hp & Hk) H0 Hlt Hmax Hh. subst k.
  tick_cases; rewrite ?u16_small in * by lia; try absurd_path;
    repeat split; solve [assumption | reflexivity].
Qed.

Lemma on_phase_end m k adc :
  in_on_phase m k -> 0 <= k -> timing_cycles_load_on m <= k + 1 -> k + 1 < 2 ^ 16 ->
  healthy_sample (undervoltage_adc_threshold m) adc = true ->
  in_off_phase (tick m adc) 0.
Proof.
  unfold in_on_phase, in_off_phase, healthy_sample, STATE_LOAD_ON,
    STATE_LOAD_OFF, HIGH, LOW.
  intros (Hf & Hc & Hs & Hp & Hk) H0 Hlt Hmax Hh. subst k.
  tick_cases; rewrite ?u16_small in * by lia; try absurd_path;
    repeat split; solve [assumption | reflexivity].
Qed.

Lemma off_phase_tick m k adc :
  in_off_phase m k -> 0 <= k -> k + 1 < timing_cycles_load_off m ->
  timing_cycles_load_off m <= 2 ^ 16 ->
  in_off_phase (tick m adc) (k + 1).
Proof.
  unfold in_off_phase, STATE_LOAD_ON, STATE_LOAD_OFF, HIGH, LOW.
  intros (Hf & Hc & Hs & Hp & Hk) H0 Hlt Hmax. subst k.
  tick_cases; rewrite ?u16_small in * by lia; try absurd_path;
    repeat split; solve [assumption | reflexivity].
Qed.

Lemma off_phase_end m k adc :
  in_off_phase m k -> 0 <= k -> timing_cycles_load_off m <= k + 1 -> k + 1 < 2 ^ 16 ->
  in_on_phase (tick m adc) 0.
Proof.
  unfold in_on_phase, in_off_phase, STATE_LOAD_ON, STATE_LOAD_OFF, HIGH, LOW.
  intros (Hf & Hc & Hs & Hp & Hk) H0 Hlt Hmax. subst k.
  tick_cases; rewrite ?u16_small in * by lia; try absurd_path;
    repeat split; solve [assumption | reflexivity].
Qed.

Lemma forallb_firstn {A} (f : A -> bool) (l : list A) (k : nat) :
  forallb f l = true -> forallb f (firstn k l) = true.
Proof.
  revert k. induction l as [|a l IH]; intros [|k] H; try reflexivity.
  cbn [forallb firstn] in *. apply andb_true_iff in H. destruct H as [Ha Hl].
  rewrite Ha. cbn [andb]. now apply IH.
Qed.

Lemma on_phase_run ticks : forall m k,
  in_on_phase m k -> 0 <= k ->
  k + Z.of_nat (length ticks) < timing_cycles_load_on m ->
  timing_cycles_load_on m <= 2 ^ 16 ->
  forallb (healthy_sample (undervoltage_adc_threshold m)) ticks = true ->
  in_on_phase (run m ticks) (k + Z.of_nat (length ticks)).
Proof.
  induction ticks as [|adc ticks IH]; intros m k Hm H0 Hlt Hmax Hh.
  - cbn [length Z.of_nat run fold_left]. now rewrite Z.add_0_r.
  - rewrite run_cons. cbn [length forallb] in *. rewrite Nat2Z.inj_succ in *.
    apply andb_true_iff in Hh. destruct Hh as [Ha Hh].
    destruct (tick_config m adc) as (_ & _ & Eon & _ & Eth).
    replace (k + Z.succ (Z.of_nat (length ticks)))
      with ((k + 1) + Z.of_nat (length ticks)) by lia.
    apply IH; rewrite ?Eon, ?Eth; try assumption; try lia.
    apply on_phase_tick; try assumption; lia.
Qed.

Lemma off_phase_run ticks : forall m k,
  in_off_phase m k -> 0 <= k ->
  k + Z.of_nat (length ticks) < timing_cycles_load_off m ->
  timing_cycles_load_off m <= 2 ^ 16 ->
  in_off_phase (run m ticks) (k + Z.of_nat (length ticks)).
Proof.
  induction ticks as [|adc ticks IH]; intros m k Hm H0 Hlt Hmax.
  - cbn [length Z.of_nat run fold_left]. now rewrite Z.add_0_r.
  - rewrite run_cons. cbn [length] in *. rewrite Nat2Z.inj_succ in *.
    destruct (tick_config m adc) as (_ & _ & _ & Eoff & _).
    replace (k + Z.succ (Z.of_nat (length ticks)))
      with ((k + 1) + Z.of_nat (length ticks)) by lia.
    apply IH; rewrite ?Eoff; try assumption; try lia.
    apply off_phase_tick; try assumption; lia.
Qed.

(** One full period of the duty cycle, for any tick counts that fit
    [uint16_t]: on for exactly [timing_cycles_load_on] ticks, then off for
    exactly [timing_cycles_load_off] ticks, then on again with the counter
    back at 0.  Samples taken during the on phase must not trip the guard;
    during the off phase nothing is measured. *)
Lemma duty_cycle_period m on_ticks off_ticks :
  in_on_phase m 0 ->
  0 < timing_cycles_load_on m < 2 ^ 16 ->
  0 < timing_cycles_load_off m < 2 ^ 16 ->
  Z.of_nat (length on_ticks) = timing_cycles_load_on m ->
  Z.of_nat (length off_ticks) = timing_cycles_load_off m ->
  forallb (healthy_sample (undervoltage_adc_threshold m)) on_ticks = true ->
  (forall k, (k < length on_ticks)%nat ->
     in_on_phase (run m (firstn k on_ticks)) (Z.of_nat k)) /\
  in_off_phase (run m on_ticks) 0 /\
  (forall k, (k < length off_ticks)%nat ->
     in_off_phase (run m (on_ticks ++ firstn k off_ticks)) (Z.of_nat k)) /\
  in_on_phase (run m (on_ticks ++ off_ticks)) 0.
Proof.
  intros Hm Hon Hoff Hlen_on Hlen_off Hh.
  assert (Hpre : forall k, (k < length on_ticks)%nat ->
            in_on_phase (run m (firstn k on_ticks)) (Z.of_nat k)).
  { intros k Hk.
    pose proof (on_phase_run (firstn k on_ticks) m 0 Hm) as H.
    rewrite length_firstn, Nat.min_l in H by lia. apply H; try lia.
    now apply forallb_firstn. }
  assert (Hend : in_off_phase (run m on_ticks) 0).
  { destruct (exists_last (l := on_ticks)) as (pre & adc & E).
    { intros ->. cbn in Hlen_on. lia. }
    assert (Hlp : length on_ticks = S (length pre))
      by (rewrite E, length_app; cbn; lia).
    assert (Efirst : firstn (length pre) on_ticks = pre)
      by (rewrite E, firstn_app, Nat.sub_diag, firstn_all; cbn; apply app_nil_r).
    specialize (Hpre (length pre)). rewrite Efirst in Hpre.
    rewrite E, run_snoc.
    destruct (run_config m pre) as (_ & _ & Eon & _ & Eth).
    apply on_phase_end with (k := Z.of_nat (length pre));
      rewrite ?Eon, ?Eth; try lia.
    - apply Hpre. lia.
    - rewrite E, forallb_app in Hh. apply andb_true_iff in Hh.
      destruct Hh as [_ Hh]. cbn [forallb] in Hh. now rewrite andb_true_r in Hh. }
  destruct (run_config m on_ticks) as (_ & _ & _ & Eoff & _).
  assert (Hpre_off : forall k, (k < length off_ticks)%nat ->
            in_off_phase (run m (on_ticks ++ firstn k off_ticks)) (Z.of_nat k)).
  { intros k Hk. rewrite run_app.
    pose proof (off_phase_run (firstn k off_ticks) (run m on_ticks) 0 Hend) as H.
    rewrite length_firstn, Nat.min_l in H by lia. apply H; rewrite ?Eoff; lia. }
  split; [exact Hpre|]. split; [exact Hend|]. split; [exact Hpre_off|].
  destruct (exists_last (l := off_ticks)) as (pre & adc & E).
  { intros ->. cbn in Hlen_off. lia. }
  assert (Hlp : length off_ticks = S (length pre))
    by (rewrite E, length_app; cbn; lia).
  assert (Efirst : firstn (length pre) off_ticks = pre)
    by (rewrite E, firstn_app, Nat.sub_diag, firstn_all; cbn; apply app_nil_r).
  specialize (Hpre_off (length pre)). rewrite Efirst in Hpre_off.
  rewrite E, app_assoc, run_snoc.
  destruct (run_config m (on_ticks ++ pre)) as (_ & _ & _ & Eoff' & _).
  apply off_phase_end with (k := Z.of_nat (length pre)); rewrite ?Eoff'; try lia.
  apply Hpre_off. lia.
Qed.

Lemma boot_in_on_phase b :
  get_feature_selection b = true -> in_on_phase (boot b) 0.
Proof.
  intros Hf. rewrite boot_eq. unfold in_on_phase. fields. rewrite Hf.
  repeat split.
Qed.

(** C2: with the load timing activated and the latch clear, the block steps
    as its two [case] labels say -- in [STATE_LOAD_ON] with the counter at or
    past [timing_cycles_load_on]: counter 0, load off, tag [STATE_LOAD_OFF];
    in [STATE_LOAD_OFF] with the counter at or past [timing_cycles_load_off]:
    counter 0, load on, tag [STATE_LOAD_ON]; otherwise nothing changes.
    For the 12 V configuration without calibration, started by [setup()],
    and samples that do not trip the guard: the load is on during the first
    7030 ticks, goes off on tick 7031, stays off for 3515 more ticks and is
    on again on tick 7031 + 3516. *)
Theorem duty_cycle_state_machine
    (m : machine) (b : board) (on_ticks off_ticks : list tick_input)
    (Hfull : all_features_activated m = true)
    (Hclear : undervoltage_protection_triggered m = false)
    (H12V : get_12V_24V_selection b = true)
    (Hfeatures : get_feature_selection b = true)
    (Huncalibrated : clock_calibration_present b = false)
    (Hon_length : length on_ticks = Z.to_nat 7031)
    (Hoff_length : length off_ticks = Z.to_nat 3516)
    (Hhealthy : forallb (healthy_sample 721) on_ticks = true) :
  (wake_state m = STATE_LOAD_ON ->
   exec loop_load_timing m =
     if wakeup_count_load_feature m >=? timing_cycles_load_on m
     then switch_load_off m else m) /\
  (wake_state m = STATE_LOAD_OFF ->
   exec loop_load_timing m =
     if wakeup_count_load_feature m >=? timing_cycles_load_off m
     then switch_load_on m else m) /\
  (wakeup_count_load_feature (switch_load_off m) = 0 /\
   load_on (switch_load_off m) = false /\
   wake_state (switch_load_off m) = STATE_LOAD_OFF) /\
  (wakeup_count_load_feature (switch_load_on m) = 0 /\
   load_on (switch_load_on m) = true /\
   wake_state (switch_load_on m) = STATE_LOAD_ON) /\
  (forall k, (k < Z.to_nat 7031)%nat ->
     load_on (run (boot b) (firstn k on_ticks)) = true /\
     wake_state (run (boot b) (firstn k on_ticks)) = STATE_LOAD_ON) /\
  (load_on (run (boot b) on_ticks) = false /\
   wake_state (run (boot b) on_ticks) = STATE_LOAD_OFF) /\
  (forall k, (k < Z.to_nat 3516)%nat ->
     load_on (run (boot b) (on_ticks ++ firstn k off_ticks)) = false /\
     wake_state (run (boot b) (on_ticks ++ firstn k off_ticks)) = STATE_LOAD_OFF) /\
  (load_on (run (boot b) (on_ticks ++ off_ticks)) = true /\
   wake_state (run (boot b) (on_ticks ++ off_ticks)) = STATE_LOAD_ON).
Proof.
  destruct (load_timing_steps m Hfull Hclear) as [Hs_on Hs_off].
  destruct (switch_load_off_fields m) as (Hf1 & Hf2 & Hf3 & _).
  destruct (switch_load_on_fields m) as (Hn1 & Hn2 & Hn3 & _).
  split; [exact Hs_on|]. split; [exact Hs_off|].
  split; [exact (conj Hf1 (conj Hf2 Hf3))|].
  split; [exact (conj Hn1 (conj Hn2 Hn3))|].
  assert (Eon : timing_cycles_load_on (boot b) = 7031).
  { rewrite boot_eq. fields. rewrite Huncalibrated. unfold nominal_on.
    now rewrite H12V. }
  assert (Eoff : timing_cycles_load_off (boot b) = 3516).
  { rewrite boot_eq. fields. rewrite Huncalibrated. unfold nominal_off.
    now rewrite H12V. }
  assert (Eth : undervoltage_adc_threshold (boot b) = 721).
  { rewrite boot_eq. fields. unfold nominal_threshold. now rewrite H12V. }
  destruct (duty_cycle_period (boot b) on_ticks off_ticks)
    as (Hpre & Hend & Hpre_off & Hagain);
    rewrite ?Eon, ?Eoff, ?Eth, ?Hon_length, ?Hoff_length;
    try assumption; try (apply boot_in_on_phase; assumption);
    try (split; reflexivity); try reflexivity.
  rewrite Hon_length in Hpre. rewrite Hoff_length in Hpre_off.
  unfold in_on_phase, in_off_phase in *. rewrite !load_on_pin.
  split; [intros k Hk; rewrite load_on_pin; specialize (Hpre k Hk); tauto|].
  split; [tauto|].
  split; [intros k Hk; rewrite load_on_pin; specialize (Hpre_off k Hk); tauto|].
  tauto.
Qed.

Lemma duty_cycle_state_machine_witness :
  let m := run (boot board_12V_full) (repeat (adc_constant 800) (Z.to_nat 7030)) in
  let m' := exec loop_wakeup m in
  let on_ticks := repeat (adc_constant 800) (Z.to_nat 7031) in
  let off_ticks := repeat (adc_constant 0) (Z.to_nat 3516) in
  exec loop_load_timing m' = switch_load_off m' /\
  load_on (switch_load_off m') = false /\
  load_on (run (boot board_12V_full) (firstn (Z.to_nat 7030) on_ticks)) = true /\
  load_on (run (boot board_12V_full) on_ticks) = false /\
  load_on (run (boot board_12V_full) (on_ticks ++ firstn (Z.to_nat 3515) off_ticks))
    = false /\
  load_on (run (boot board_12V_full) (on_ticks ++ off_ticks)) = true.
Proof.
  intros m m' on_ticks off_ticks.
  assert (Hfull : all_features_activated m' = true) by (vm_compute; reflexivity).
  assert (Hclear : undervoltage_protection_triggered m' = false)
    by (vm_compute; reflexivity).
  assert (Hon_length : length on_ticks = Z.to_nat 7031) by (vm_compute; reflexivity).
  assert (Hoff_length : length off_ticks = Z.to_nat 3516) by (vm_compute; reflexivity).
  assert (Hhealthy : forallb (healthy_sample 721) on_ticks = true)
    by (vm_compute; reflexivity).
  destruct (duty_cycle_state_machine m' board_12V_full on_ticks off_ticks
              Hfull Hclear eq_refl eq_refl eq_refl Hon_length Hoff_length Hhealthy)
    as (Hs_on & _ & (_ & Hoff & _) & _ & Hpre & (Hend & _) & Hpre_off & (Hagain & _)).
  assert (Hstate : wake_state m' = STATE_LOAD_ON) by (vm_compute; reflexivity).
  assert (Hdue : (wakeup_count_load_feature m' >=? timing_cycles_load_on m') = true)
    by (vm_compute; reflexivity).
  specialize (Hs_on Hstate). rewrite Hdue in Hs_on.
  assert (H7030 : (Z.to_nat 7030 < Z.to_nat 7031)%nat) by (vm_compute; lia).
  assert (H3515 : (Z.to_nat 3515 < Z.to_nat 3516)%nat) by (vm_compute; lia).
  exact (conj Hs_on (conj Hoff (conj (proj1 (Hpre _ H7030))
           (conj Hend (conj (proj1 (Hpre_off _ H3515)) Hagain))))).
Defined.

(** * Further properties of the firmware *)

(** ** [read_battery_voltage]: the average of 32 conversions *)

(** The exact sum of the [n] conversions starting at index [i]. *)
Fixpoint sum_readings (analogRead : nat -> Z) (i n : nat) : Z :=
  match n with
  | O => 0
  | S n' => analogRead i + sum_readings analogRead (S i) n'
  end.

Lemma sum_readings_bounds adc lo hi n : forall i,
  (forall j, (i <= j < i + n)%nat -> lo <= adc j <= hi) ->
  Z.of_nat n * lo <= sum_readings adc i n <= Z.of_nat n * hi.
Proof.
  induction n as [|n IH]; intros i H.
  - cbn [sum_readings Z.of_nat]. lia.
  - cbn [sum_readings]. rewrite Nat2Z.inj_succ.
    assert (Hi : lo <= adc i <= hi) by (apply H; lia).
    assert (Hr : Z.of_nat n * lo <= sum_readings adc (S i) n <= Z.of_nat n * hi)
      by (apply IH; intros j Hj; apply H; lia).
    lia.
Qed.

Lemma accumulate_readings_exact adc hi n : forall i acc,
  0 <= acc ->
  (forall j, (i <= j < i + n)%nat -> 0 <= adc j <= hi) ->
  acc + Z.of_nat n * hi < 2 ^ 16 ->
  accumulate_readings adc i n acc = acc + sum_readings adc i n.
Proof.
  induction n as [|n IH]; intros i acc Hacc H Hfit.
  - cbn [accumulate_readings sum_readings]. lia.
  - cbn [accumulate_readings sum_readings]. rewrite Nat2Z.inj_succ in Hfit.
    assert (Hi : 0 <= adc i <= hi) by (apply H; lia).
    rewrite u16_small by nia.
    rewrite IH; try lia; try nia.
    intros j Hj. apply H. lia.
Qed.

Lemma eval_read_battery_voltage adc m :
  eval (read_battery_voltage adc) m = battery_sample adc.
Proof. unfold eval. now rewrite read_battery_voltage_run. Qed.

(** X1: when each of the 32 conversions lies between [lo] and [hi], with
    [0 <= lo] and [hi <= 2047] (a 10-bit converter gives at most 1023), the
    16-bit accumulator does not wrap: [read_battery_voltage] returns the sum
    of the conversions divided by 32, a value between [lo] and [hi]. *)
Theorem read_battery_voltage_is_average
    (adc : nat -> Z) (lo hi : Z) (m : machine)
    (Hlo : 0 <= lo) (Hhi : hi <= 2047)
    (Hrange : forall i, (i < 32)%nat -> lo <= adc i <= hi) :
  eval (read_battery_voltage adc) m = sum_readings adc 0 32 / 32 /\
  lo <= eval (read_battery_voltage adc) m <= hi.
Proof.
  rewrite eval_read_battery_voltage. unfold battery_sample, ADC_AVERAGE_NUM,
    ADC_DIVISION_SHIFT.
  assert (Hsum : Z.of_nat 32 * lo <= sum_readings adc 0 32 <= Z.of_nat 32 * hi).
  { apply sum_readings_bounds. intros j Hj. apply Hrange. lia. }
  rewrite (accumulate_readings_exact adc hi); try lia.
  - rewrite Z.shiftr_div_pow2 by lia. change (2 ^ 5) with 32.
    rewrite Z.add_0_l. split; [reflexivity|].
    change (Z.of_nat 32) with 32 in Hsum.
    split; [apply Z.div_le_lower_bound | apply Z.div_le_upper_bound]; lia.
  - intros j Hj. assert (lo <= adc j <= hi) by (apply Hrange; lia). lia.
Qed.

Lemma read_battery_voltage_is_average_witness :
  eval (read_battery_voltage (adc_constant 800)) power_on
    = sum_readings (adc_constant 800) 0 32 / 32 /\
  800 <= eval (read_battery_voltage (adc_constant 800)) power_on <= 800.
Proof.
  apply (read_battery_voltage_is_average (adc_constant 800) 800 800 power_on);
    try lia.
  intros i Hi. unfold adc_constant. lia.
Defined.

(** ** [read_clock_calibration]: a big-endian 32-bit field *)

Lemma lor_disjoint_add hi lo k p :
  0 <= k -> p = 2 ^ k -> 0 <= lo < p -> Z.lor (hi * p) lo = hi * p + lo.
Proof.
  intros Hk -> Hlo.
  assert (Hland : Z.land (hi * 2 ^ k) lo = 0).
  { apply Z.bits_inj'. intros n Hn. rewrite Z.land_spec, Z.bits_0.
    destruct (Z_lt_dec n k) as [Hlt|Hge].
    - rewrite Z.mul_pow2_bits_low by assumption. reflexivity.
    - rewrite <- (Z.mod_small lo (2 ^ k)) by assumption.
      rewrite Z.mod_pow2_bits_high by lia. apply andb_false_r. }
  rewrite <- Z.lxor_lor by assumption. symmetry. now apply Z.add_nocarry_lxor.
Qed.

Lemma read_clock_calibration_value b :
  read_clock_calibration b =
  let v := EEPROM_read b EEPROM_ADDR_CLOCK_CALIB_3_MSB * 2 ^ 24
           + EEPROM_read b EEPROM_ADDR_CLOCK_CALIB_2 * 2 ^ 16
           + EEPROM_read b EEPROM_ADDR_CLOCK_CALIB_1 * 2 ^ 8
           + EEPROM_read b EEPROM_ADDR_CLOCK_CALIB_0_LSB in
  if v =? 0xFFFFFFFF then 0 else v.
Proof.
  unfold read_clock_calibration, EEPROM_read.
  generalize (u8_range (eeprom b EEPROM_ADDR_CLOCK_CALIB_3_MSB)).
  generalize (u8_range (eeprom b EEPROM_ADDR_CLOCK_CALIB_2)).
  generalize (u8_range (eeprom b EEPROM_ADDR_CLOCK_CALIB_1)).
  generalize (u8_range (eeprom b EEPROM_ADDR_CLOCK_CALIB_0_LSB)).
  generalize (u8 (eeprom b EEPROM_ADDR_CLOCK_CALIB_3_MSB)).
  generalize (u8 (eeprom b EEPROM_ADDR_CLOCK_CALIB_2)).
  generalize (u8 (eeprom b EEPROM_ADDR_CLOCK_CALIB_1)).
  generalize (u8 (eeprom b EEPROM_ADDR_CLOCK_CALIB_0_LSB)).
  intros b0 b1 b2 b3 H0 H1 H2 H3.
  rewrite !Z.shiftl_mul_pow2 by lia.
  change (2 ^ 8) with 256 in *. change (2 ^ 16) with 65536.
  change (2 ^ 24) with 16777216.
  rewrite !u32_small by (change (2 ^ 32) with 4294967296; lia).
  rewrite (lor_disjoint_add b3 (b2 * 65536) 24 16777216)
    by first [reflexivity | lia].
  replace (b3 * 16777216 + b2 * 65536) with ((b3 * 256 + b2) * 65536) by ring.
  rewrite (lor_disjoint_add _ (b1 * 256) 16 65536) by first [reflexivity | lia].
  replace ((b3 * 256 + b2) * 65536 + b1 * 256)
    with ((b3 * 65536 + b2 * 256 + b1) * 256) by ring.
  rewrite (lor_disjoint_add _ b0 8 256) by first [reflexivity | lia].
  replace ((b3 * 65536 + b2 * 256 + b1) * 256 + b0)
    with (b3 * 16777216 + b2 * 65536 + b1 * 256 + b0) by ring.
  reflexivity.
Qed.

(** X2: if the four EEPROM cells hold the big-endian bytes of a 32-bit value
    [c], [read_clock_calibration] returns [c] -- except for the erased
    pattern 0xFFFFFFFF, which it turns into 0.  It never returns
    0xFFFFFFFF. *)
Theorem read_clock_calibration_round_trip
    (b : board) (c : Z)
    (Hc : 0 <= c < 2 ^ 32)
    (H3 : eeprom b EEPROM_ADDR_CLOCK_CALIB_3_MSB = (c / 2 ^ 24) mod 2 ^ 8)
    (H2 : eeprom b EEPROM_ADDR_CLOCK_CALIB_2 = (c / 2 ^ 16) mod 2 ^ 8)
    (H1 : eeprom b EEPROM_ADDR_CLOCK_CALIB_1 = (c / 2 ^ 8) mod 2 ^ 8)
    (H0 : eeprom b EEPROM_ADDR_CLOCK_CALIB_0_LSB = c mod 2 ^ 8) :
  read_clock_calibration b = (if c =? 0xFFFFFFFF then 0 else c) /\
  0 <= read_clock_calibration b < 0xFFFFFFFF.
Proof.
  rewrite read_clock_calibration_value. unfold EEPROM_read, u8.
  rewrite H3, H2, H1, H0. rewrite !Z.mod_mod by (cbv; discriminate).
  cbv zeta.
  assert (E : (c / 2 ^ 24) mod 2 ^ 8 * 2 ^ 24 + (c / 2 ^ 16) mod 2 ^ 8 * 2 ^ 16
              + (c / 2 ^ 8) mod 2 ^ 8 * 2 ^ 8 + c mod 2 ^ 8 = c).
  { change (2 ^ 32) with 4294967296 in Hc.
    change (2 ^ 24) with 16777216; change (2 ^ 16) with 65536;
      change (2 ^ 8) with 256.
    Z.to_euclidean_division_equations. lia. }
  rewrite E. split; [reflexivity|].
  destruct (c =? 0xFFFFFFFF) eqn:Ec.
  - lia.
  - apply Z.eqb_neq in Ec. change (2 ^ 32) with 4294967296 in Hc. lia.
Qed.

Lemma read_clock_calibration_round_trip_witness :
  read_clock_calibration board_12V_calibrated = 140000 /\
  0 <= read_clock_calibration board_12V_calibrated < 0xFFFFFFFF.
Proof.
  apply (read_clock_calibration_round_trip board_12V_calibrated 140000);
    try reflexivity. lia.
Defined.

(** ** [apply_clock_calibration]: direction and size of the correction *)

(** X3: for an accepted constant and a tick count whose product fits 32
    bits, a clock slower than the nominal 128 kHz shortens the count, a
    faster one lengthens it, the nominal one leaves it alone; the result
    grows with the tick count and with the constant, and stays within the
    accepted deviation of the nominal count. *)
Theorem apply_clock_calibration_direction
    (c n : Z)
    (Hc : 98000 <= c <= 158000) (Hn : 0 <= n <= 27182) :
  (c <= 128000 -> apply_clock_calibration c n <= n) /\
  (128000 <= c -> n <= apply_clock_calibration c n) /\
  (c = 128000 -> apply_clock_calibration c n = n) /\
  (forall n', n <= n' <= 27182 ->
     apply_clock_calibration c n <= apply_clock_calibration c n') /\
  (forall c', c <= c' <= 158000 ->
     apply_clock_calibration c n <= apply_clock_calibration c' n) /\
  98000 * n / 128000 <= apply_clock_calibration c n <= 158000 * n / 128000.
Proof.
  rewrite apply_clock_calibration_exact by (try nia; lia).
  split; [|split; [|split; [|split; [|split]]]].
  - intros H. apply Z.div_le_upper_bound; nia.
  - intros H. apply Z.div_le_lower_bound; nia.
  - intros ->. rewrite Z.mul_comm. apply Z.div_mul. discriminate.
  - intros n' Hn'. rewrite apply_clock_calibration_exact by (try nia; lia).
    apply Z.div_le_mono; nia.
  - intros c' Hc'. rewrite apply_clock_calibration_exact by (try nia; lia).
    apply Z.div_le_mono; nia.
  - split; apply Z.div_le_mono; nia.
Qed.

Lemma apply_clock_calibration_direction_witness :
  (140000 <= 128000 -> apply_clock_calibration 140000 7031 <= 7031) /\
  (128000 <= 140000 -> 7031 <= apply_clock_calibration 140000 7031) /\
  (140000 = 128000 -> apply_clock_calibration 140000 7031 = 7031) /\
  (forall n', 7031 <= n' <= 27182 ->
     apply_clock_calibration 140000 7031 <= apply_clock_calibration 140000 n') /\
  (forall c', 140000 <= c' <= 158000 ->
     apply_clock_calibration 140000 7031 <= apply_clock_calibration c' 7031) /\
  98000 * 7031 / 128000 <= apply_clock_calibration 140000 7031
    <= 158000 * 7031 / 128000.
Proof.
  apply (apply_clock_calibration_direction 140000 7031); lia.
Defined.

Lemma apply_clock_calibration_band c n :
  0 <= n <= 27182 ->
  98000 * n / 128000 <= apply_clock_calibration c n <= 158000 * n / 128000.
Proof.
  intros Hn.
  destruct (Z_le_dec 98000 c) as [Hlo|Hlo]; [destruct (Z_le_dec c 158000) as [Hhi|Hhi]|].
  - rewrite apply_clock_calibration_exact by (try nia; lia).
    split; apply Z.div_le_mono; nia.
  - rewrite apply_clock_calibration_discarded by lia.
    split; [apply Z.div_le_upper_bound | apply Z.div_le_lower_bound]; lia.
  - rewrite apply_clock_calibration_discarded by lia.
    split; [apply Z.div_le_upper_bound | apply Z.div_le_lower_bound]; lia.
Qed.

(** ** What [setup()] establishes on every board *)

Lemma boot_timing_bounds b :
  5383 <= timing_cycles_load_on (boot b) <= 10848 /\
  1345 <= timing_cycles_load_off (boot b) <= 4340.
Proof.
  rewrite boot_eq. fields.
  pose proof (apply_clock_calibration_band (read_clock_calibration b)
                (nominal_on b)) as Hon.
  pose proof (apply_clock_calibration_band (read_clock_calibration b)
                (nominal_off b)) as Hoff.
  revert Hon Hoff.
  unfold nominal_on, nominal_off, TIMING_CYCLES_LOAD_ON_12V,
    TIMING_CYCLES_LOAD_ON_24V, TIMING_CYCLES_LOAD_OFF_12V,
    TIMING_CYCLES_LOAD_OFF_24V.
  destruct (clock_calibration_present b), (get_12V_24V_selection b);
    intros Hon Hoff; try lia;
    specialize (Hon ltac:(lia)); specialize (Hoff ltac:(lia)).
  - change (98000 * 7031 / 128000) with 5383 in Hon.
    change (158000 * 7031 / 128000) with 8678 in Hon.
    change (98000 * 3516 / 128000) with 2691 in Hoff.
    change (158000 * 3516 / 128000) with 4340 in Hoff. lia.
  - change (98000 * 8789 / 128000) with 6729 in Hon.
    change (158000 * 8789 / 128000) with 10848 in Hon.
    change (98000 * 1758 / 128000) with 1345 in Hoff.
    change (158000 * 1758 / 128000) with 2170 in Hoff. lia.
Qed.

(** X4: whatever the EEPROM holds and however the jumpers are set, [setup()]
    ends with the load on, the latch clear, both counters at 0, the tag at
    [STATE_LOAD_ON], the ADC and the divider off, and tick counts within
    5383..10848 (on) and 1345..4340 (off): never 0, never truncated by the
    16-bit store, and the on phase is the longer one. *)
Theorem setup_postconditions (b : board) :
  load_on (boot b) = true /\
  undervoltage_protection_triggered (boot b) = false /\
  wakeup_count_load_feature (boot b) = 0 /\
  wakeup_count_undervoltage_protection (boot b) = 0 /\
  wake_state (boot b) = STATE_LOAD_ON /\
  ADEN (boot b) = false /\ VDIV_EN_PIN (boot b) = HIGH /\
  5383 <= timing_cycles_load_on (boot b) <= 10848 /\
  1345 <= timing_cycles_load_off (boot b) <= 4340 /\
  timing_cycles_load_off (boot b) < timing_cycles_load_on (boot b) /\
  (undervoltage_adc_threshold (boot b) = 721 \/
   undervoltage_adc_threshold (boot b) = 726).
Proof.
  destruct (boot_timing_bounds b) as [Hon Hoff].
  split; [rewrite load_on_pin, boot_eq; reflexivity|].
  do 6 (split; [rewrite boot_eq; reflexivity|]).
  split; [exact Hon|]. split; [exact Hoff|]. split; [lia|].
  rewrite boot_eq. fields.
  unfold nominal_threshold, ADC_BATTERY_THRESHOLD_12v, ADC_BATTERY_THRESHOLD_24v.
  destruct (get_12V_24V_selection b); auto.
Qed.

(** ** Power state at every sleep *)

(** X5: in every run from [setup()], each time [loop()] returns (and the
    next call goes to sleep) the ADC is disabled and the voltage divider is
    switched off; the state tag is one of the two enumerators, and a set
    latch means the load is off. *)
Theorem sleep_state_invariant (b : board) (ticks : list tick_input) :
  ADEN (run (boot b) ticks) = false /\
  VDIV_EN_PIN (run (boot b) ticks) = HIGH /\
  (wake_state (run (boot b) ticks) = STATE_LOAD_ON \/
   wake_state (run (boot b) ticks) = STATE_LOAD_OFF) /\
  (undervoltage_protection_triggered (run (boot b) ticks) = true ->
   load_on (run (boot b) ticks) = false).
Proof.
  destruct (reachable_consistent b ticks) as (Hs & Hl & _ & Ha & Hd).
  rewrite load_on_pin. repeat split; assumption.
Qed.

Lemma sleep_state_invariant_witness :
  let ticks := repeat (adc_constant 800) 109 ++ [adc_constant 700] in
  load_on (run (boot board_12V_full) ticks) = false.
Proof.
  intros ticks.
  apply (sleep_state_invariant board_12V_full ticks). vm_compute. reflexivity.
Defined.

(** ** The load switch is never driven redundantly *)

(** [n] alternating levels, the first being [first]. *)
Fixpoint toggles (n : nat) (first : bool) : list bool :=
  match n with
  | O => []
  | S n' => first :: toggles n' (negb first)
  end.

Lemma toggles_snoc n : forall first,
  toggles (S n) first = toggles n first ++ [if Nat.even n then first else negb first].
Proof.
  induction n as [|n IH]; intros first; [reflexivity|].
  change (toggles (S (S n)) first) with (first :: toggles (S n) (negb first)).
  rewrite IH. cbn [toggles app]. rewrite Nat.even_succ, <- Nat.negb_even.
  destruct (Nat.even n); cbn [negb]; rewrite ?negb_involutive; reflexivity.
Qed.

(** The [enable_load] calls so far alternate, starting with the
    [enable_load(false)] of [initialize_gpios], and the pin shows the last. *)
Definition switch_log_ok (m : machine) : Prop :=
  load_switchings (trace m) = toggles (length (load_switchings (trace m))) false /\
  VBAT_EN_PIN m = Nat.even (length (load_switchings (trace m))).

Lemma switch_log_call m e m' :
  switch_log_ok m ->
  VBAT_EN_PIN m = negb e ->
  load_switchings (trace m') = load_switchings (trace m) ++ [e] ->
  VBAT_EN_PIN m' = e ->
  switch_log_ok m'.
Proof.
  unfold switch_log_ok. intros [Hl Hp] Hpin Ht Hp'. rewrite Ht, length_app.
  cbn [length]. rewrite Nat.add_1_r, toggles_snoc, <- Hl, Nat.even_succ,
    <- Nat.negb_even, <- Hp, Hpin, negb_involutive.
  split; [|assumption]. destruct e; reflexivity.
Qed.

Lemma switch_log_quiet m m' :
  switch_log_ok m ->
  load_switchings (trace m') = load_switchings (trace m) ->
  VBAT_EN_PIN m' = VBAT_EN_PIN m ->
  switch_log_ok m'.
Proof. unfold switch_log_ok. intros [Hl Hp] -> ->. now split. Qed.

Lemma tick_switch_log m adc :
  consistent m -> switch_log_ok m -> switch_log_ok (tick m adc).
Proof.
  intros (Hs & Hl & Hu & _) Hlog.
  assert (Hon : undervoltage_protection_triggered m = false ->
                wake_state m = STATE_LOAD_ON -> VBAT_EN_PIN m = true)
    by (intros H1 H2; now apply Hu).
  assert (Hoff : undervoltage_protection_triggered m = false ->
                 wake_state m = STATE_LOAD_OFF -> VBAT_EN_PIN m = false).
  { intros H1 H2. destruct (VBAT_EN_PIN m); [|reflexivity].
    destruct (Hu H1) as [_ Hback]. specialize (Hback eq_refl).
    unfold STATE_LOAD_ON, STATE_LOAD_OFF in *. lia. }
  rewrite tick_blocks, exec_loop_load_timing, exec_loop_undervoltage_protection,
    exec_loop_wakeup.
  unfold measured; fields; repeat (branch; fields); prop_of_bool;
    try absurd_path.
  all: try (eapply switch_log_quiet; [exact Hlog | fields | fields];
            rewrite ?load_switchings_app; cbn [load_switchings];
            rewrite ?app_nil_r; reflexivity).
  all: try (eapply (switch_log_call m false); [exact Hlog | | fields | fields];
            rewrite ?load_switchings_app; cbn [load_switchings];
            rewrite ?app_nil_r; cbn [negb]; solve [reflexivity | auto]).
  all: try (eapply (switch_log_call m true); [exact Hlog | | fields | fields];
            rewrite ?load_switchings_app; cbn [load_switchings];
            rewrite ?app_nil_r; cbn [negb]; solve [reflexivity | auto]).
Qed.

Lemma run_switch_log m ticks :
  consistent m -> switch_log_ok m -> switch_log_ok (run m ticks).
Proof.
  revert m. induction ticks as [|adc ticks IH]; intros m Hc Hl; [exact Hl|].
  rewrite run_cons. apply IH; [now apply tick_consistent | now apply tick_switch_log].
Qed.

(** X6: in every run from [setup()] the sequence of [enable_load] arguments
    alternates false, true, false, ... and the pin shows the last of them:
    [loop()] never switches the load to the level it already has. *)
Theorem load_switchings_alternate (b : board) (ticks : list tick_input) :
  load_switchings (trace (run (boot b) ticks)) =
    toggles (length (load_switchings (trace (run (boot b) ticks)))) false /\
  load_on (run (boot b) ticks) =
    Nat.even (length (load_switchings (trace (run (boot b) ticks)))).
Proof.
  rewrite load_on_pin. apply run_switch_log; [apply boot_consistent|].
  rewrite boot_eq. unfold switch_log_ok. fields. split; reflexivity.
Qed.

(** ** The latch and the recorded measurements *)

Definition below (th v : Z) : bool := v <? th.

Lemma tick_latch_samples m adc :
  undervoltage_protection_triggered m =
    existsb (below (undervoltage_adc_threshold m)) (samples (trace m)) ->
  undervoltage_protection_triggered (tick m adc) =
    existsb (below (undervoltage_adc_threshold (tick m adc)))
      (samples (trace (tick m adc))).
Proof.
  intros H. unfold below in *.
  tick_cases; rewrite ?samples_app, ?existsb_app; cbn [samples existsb];
    rewrite ?orb_false_r, ?app_nil_r, ?existsb_app; cbn [existsb];
    rewrite ?orb_false_r;
    repeat match goal with
           | E : (battery_sample adc <? _) = _ |- _ => rewrite E; clear E
           end;
    rewrite ?orb_false_r, ?orb_true_r; solve [assumption | reflexivity].
Qed.

Lemma run_latch_samples ticks : forall m,
  undervoltage_protection_triggered m =
    existsb (below (undervoltage_adc_threshold m)) (samples (trace m)) ->
  undervoltage_protection_triggered (run m ticks) =
    existsb (below (undervoltage_adc_threshold (run m ticks)))
      (samples (trace (run m ticks))).
Proof.
  induction ticks as [|adc ticks IH]; intros m H0; [exact H0|].
  rewrite run_cons. apply IH. now apply tick_latch_samples.
Qed.

(** X7: in every run from [setup()] the latch is set exactly when one of
    the measurements taken so far was below the threshold; the latch has no
    other cause and a measurement in range never sets it. *)
Theorem latch_iff_low_measurement (b : board) (ticks : list tick_input) :
  undervoltage_protection_triggered (run (boot b) ticks) =
    existsb (below (undervoltage_adc_threshold (boot b)))
      (samples (trace (run (boot b) ticks))).
Proof.
  destruct (run_config (boot b) ticks) as (_ & _ & _ & _ & <-).
  apply run_latch_samples. rewrite boot_eq. reflexivity.
Qed.

(** ** The first measurement *)

(** [k] ticks after [setup()], before anything was measured or switched. *)
Definition warming_up (m : machine) (k : Z) : Prop :=
  undervoltage_protection_triggered m = false /\
  wake_state m = STATE_LOAD_ON /\ VBAT_EN_PIN m = HIGH /\
  wakeup_count_load_feature m = k /\
  wakeup_count_undervoltage_protection m = k /\
  trace m = [Ev_enable_load false; Ev_enable_load true].

Lemma warming_up_tick m k adc :
  warming_up m k -> 0 <= k -> k + 1 < TIMING_CYCLES_BATTERY_MEASUREMENT ->
  TIMING_CYCLES_BATTERY_MEASUREMENT < timing_cycles_load_on m ->
  warming_up (tick m adc) (k + 1).
Proof.
  unfold warming_up, TIMING_CYCLES_BATTERY_MEASUREMENT.
  intros (Hc & Hs & Hp & Hlf & Huv & Ht) H0 Hk Hon. subst k.
  tick_cases; rewrite ?u16_small in * by lia; try absurd_path;
    repeat split; solve [assumption | reflexivity | lia].
Qed.

Lemma warming_up_run ticks : forall m k,
  warming_up m k -> 0 <= k ->
  k + Z.of_nat (length ticks) < TIMING_CYCLES_BATTERY_MEASUREMENT ->
  TIMING_CYCLES_BATTERY_MEASUREMENT < timing_cycles_load_on m ->
  warming_up (run m ticks) (k + Z.of_nat (length ticks)).
Proof.
  induction ticks as [|adc ticks IH]; intros m k Hm H0 Hk Hon.
  - cbn [length Z.of_nat run fold_left]. now rewrite Z.add_0_r.
  - rewrite run_cons. cbn [length] in *. rewrite Nat2Z.inj_succ in *.
    destruct (tick_config m adc) as (_ & _ & Eon & _ & _).
    replace (k + Z.succ (Z.of_nat (length ticks)))
      with ((k + 1) + Z.of_nat (length ticks)) by lia.
    apply IH; rewrite ?Eon; try lia.
    apply warming_up_tick; try assumption; lia.
Qed.

Lemma warming_up_measure m adc :
  warming_up m 109 ->
  TIMING_CYCLES_BATTERY_MEASUREMENT < timing_cycles_load_on m ->
  samples (trace (tick m adc)) = [battery_sample adc] /\
  undervoltage_protection_triggered (tick m adc) =
    (battery_sample adc <? undervoltage_adc_threshold m) /\
  VBAT_EN_PIN (tick m adc) =
    negb (battery_sample adc <? undervoltage_adc_threshold m).
Proof.
  unfold warming_up, TIMING_CYCLES_BATTERY_MEASUREMENT.
  intros (Hc & Hs & Hp & Hlf & Huv & Ht) Hon.
  tick_cases; rewrite ?Hlf, ?Huv in *; rewrite ?u16_small in * by lia;
    try absurd_path; rewrite Ht; cbn [app samples negb];
    repeat split; solve [assumption | reflexivity].
Qed.

(** X8: on every board the first measurement happens on tick 110 and not
    before: during the first 109 ticks the load is on and nothing is
    measured or switched, whatever the battery voltage; tick 110 measures,
    and the load is cut and latched on that tick exactly when the sample
    is below the threshold. *)
Theorem first_measurement_on_tick_110
    (b : board) (ticks : list tick_input) (adc : tick_input) :
  ((length ticks < 110)%nat ->
   load_on (run (boot b) ticks) = true /\
   trace (run (boot b) ticks) = trace (boot b)) /\
  (length ticks = 109%nat ->
   samples (trace (run (boot b) (ticks ++ [adc]))) = [battery_sample adc] /\
   undervoltage_protection_triggered (run (boot b) (ticks ++ [adc])) =
     (battery_sample adc <? undervoltage_adc_threshold (boot b)) /\
   load_on (run (boot b) (ticks ++ [adc])) =
     negb (battery_sample adc <? undervoltage_adc_threshold (boot b))).
Proof.
  assert (H0 : warming_up (boot b) 0)
    by (rewrite boot_eq; unfold warming_up; fields; repeat split).
  assert (Hon : TIMING_CYCLES_BATTERY_MEASUREMENT < timing_cycles_load_on (boot b))
    by (destruct (boot_timing_bounds b); unfold TIMING_CYCLES_BATTERY_MEASUREMENT; lia).
  assert (Hw : (length ticks < 110)%nat ->
               warming_up (run (boot b) ticks) (Z.of_nat (length ticks))).
  { intros Hlen. apply (warming_up_run ticks (boot b) 0); try assumption;
      unfold TIMING_CYCLES_BATTERY_MEASUREMENT; lia. }
  split.
  - intros Hlen. destruct (Hw Hlen) as (_ & _ & Hp & _ & _ & Ht).
    rewrite load_on_pin, Ht. split; [exact Hp|]. rewrite boot_eq. reflexivity.
  - intros Hlen. rewrite run_snoc, load_on_pin.
    destruct (run_config (boot b) ticks) as (_ & _ & Eon & _ & Eth).
    rewrite <- Eth. apply warming_up_measure; rewrite ?Eon; try assumption.
    replace 109 with (Z.of_nat (length ticks)) by lia. apply Hw. lia.
Qed.

Lemma first_measurement_on_tick_110_witness :
  let ticks := repeat (adc_constant 0) 109 in
  (load_on (run (boot board_12V_full) ticks) = true /\
   trace (run (boot board_12V_full) ticks) = trace (boot board_12V_full)) /\
  (samples (trace (run (boot board_12V_full) (ticks ++ [adc_constant 0])))
     = [battery_sample (adc_constant 0)] /\
   undervoltage_protection_triggered
     (run (boot board_12V_full) (ticks ++ [adc_constant 0])) =
     (battery_sample (adc_constant 0)
        <? undervoltage_adc_threshold (boot board_12V_full)) /\
   load_on (run (boot board_12V_full) (ticks ++ [adc_constant 0])) =
     negb (battery_sample (adc_constant 0)
             <? undervoltage_adc_threshold (boot board_12V_full))).
Proof.
  intros ticks.
  destruct (first_measurement_on_tick_110 board_12V_full ticks (adc_constant 0))
    as [Hquiet Hfirst].
  split; [apply Hquiet; vm_compute; lia | apply Hfirst; reflexivity].
Defined.

(** ** The duty cycle keeps repeating *)

(** A period: the inputs of an on phase and of the off phase after it, of
    the configured lengths, the on-phase samples not tripping the guard. *)
Definition period_ok (t_on t_off th : Z)
    (p : list tick_input * list tick_input) : bool :=
  (Z.of_nat (length (fst p)) =? t_on)
  && (Z.of_nat (length (snd p)) =? t_off)
  && forallb (healthy_sample th) (fst p).

Definition play (periods : list (list tick_input * list tick_input))
    : list tick_input :=
  concat (map (fun p => fst p ++ snd p) periods).

Lemma periods_run periods : forall m,
  in_on_phase m 0 ->
  0 < timing_cycles_load_on m < 2 ^ 16 ->
  0 < timing_cycles_load_off m < 2 ^ 16 ->
  forallb (period_ok (timing_cycles_load_on m) (timing_cycles_load_off m)
             (undervoltage_adc_threshold m)) periods = true ->
  in_on_phase (run m (play periods)) 0.
Proof.
  induction periods as [|[on_ticks off_ticks] periods IH]; intros m Hm Hon Hoff Hok.
  - exact Hm.
  - unfold play in *. cbn [map concat forallb fst snd] in *.
    apply andb_true_iff in Hok. destruct Hok as [Hp Hrest].
    unfold period_ok in Hp. cbn [fst snd] in Hp. prop_of_bool.
    rewrite run_app.
    destruct (run_config m (on_ticks ++ off_ticks)) as (_ & _ & Eon & Eoff & Eth).
    apply IH; rewrite ?Eon, ?Eoff, ?Eth; try assumption.
    now apply duty_cycle_period.
Qed.

(** X9: on a board with all features selected, after any number of whole
    periods (on phase, then off phase, of the lengths [setup()] derived, the
    on-phase samples at or above the threshold) the machine is back at the
    start of an on phase: load on, tag [STATE_LOAD_ON], counter 0, latch
    clear.  Calibrated tick counts included. *)
Theorem duty_cycle_repeats
    (b : board) (periods : list (list tick_input * list tick_input))
    (Hfeatures : get_feature_selection b = true)
    (Hperiods :
       forallb (period_ok (timing_cycles_load_on (boot b))
                  (timing_cycles_load_off (boot b))
                  (undervoltage_adc_threshold (boot b))) periods = true) :
  load_on (run (boot b) (play periods)) = true /\
  wake_state (run (boot b) (play periods)) = STATE_LOAD_ON /\
  wakeup_count_load_feature (run (boot b) (play periods)) = 0 /\
  undervoltage_protection_triggered (run (boot b) (play periods)) = false.
Proof.
  destruct (boot_timing_bounds b) as [Hon Hoff].
  destruct (periods_run periods (boot b)) as (_ & Hc & Hs & Hp & Hk);
    try assumption; try lia.
  - now apply boot_in_on_phase.
  - rewrite load_on_pin. repeat split; assumption.
Qed.

Definition two_periods : list (list tick_input * list tick_input) :=
  let p := (repeat (adc_constant 800) (Z.to_nat 7690),
            repeat (adc_constant 0) (Z.to_nat 3845)) in
  [p; p].

Lemma duty_cycle_repeats_witness :
  load_on (run (boot board_12V_calibrated) (play two_periods)) = true /\
  wake_state (run (boot board_12V_calibrated) (play two_periods)) = STATE_LOAD_ON /\
  wakeup_count_load_feature (run (boot board_12V_calibrated) (play two_periods)) = 0 /\
  undervoltage_protection_triggered
    (run (boot board_12V_calibrated) (play two_periods)) = false.
Proof.
  apply (duty_cycle_repeats board_12V_calibrated two_periods);
    vm_compute; reflexivity.
Defined.

(** ** Measurement count in undervoltage-only mode *)

Definition monitoring (m : machine) (n : Z) : Prop :=
  all_features_activated m = false /\
  undervoltage_protection_triggered m = false /\
  VBAT_EN_PIN m = HIGH /\
  wakeup_count_undervoltage_protection m = n mod 110 /\
  Z.of_nat (length (samples (trace m))) = n / 110.

Lemma monitoring_tick m n adc :
  monitoring m n -> 0 <= n ->
  healthy_sample (undervoltage_adc_threshold m) adc = true ->
  monitoring (tick m adc) (n + 1).
Proof.
  unfold monitoring, healthy_sample.
  intros (Hf & Hc & Hp & Huv & Hn) H0 Hh.
  assert (Hr : 0 <= n mod 110 < 110) by (apply Z.mod_pos_bound; lia).
  tick_cases; rewrite ?Huv in *; rewrite ?u16_small in * by lia;
    rewrite ?samples_app, ?length_app; cbn [samples length];
    rewrite ?Nat.add_0_r, ?Nat.add_1_r, ?Nat2Z.inj_succ;
    try absurd_path; prop_of_bool;
    unfold TIMING_CYCLES_BATTERY_MEASUREMENT in *;
    repeat split; try assumption; try reflexivity;
    rewrite ?Hn;
    repeat match goal with
           | H : _ \/ _ |- _ => destruct H
           end;
    unfold HIGH, LOW in *; try congruence;
    Z.to_euclidean_division_equations; lia.
Qed.

Lemma monitoring_run ticks : forall m n,
  monitoring m n -> 0 <= n ->
  forallb (healthy_sample (undervoltage_adc_threshold m)) ticks = true ->
  monitoring (run m ticks) (n + Z.of_nat (length ticks)).
Proof.
  induction ticks as [|adc ticks IH]; intros m n Hm H0 Hh.
  - cbn [length Z.of_nat run fold_left]. now rewrite Z.add_0_r.
  - rewrite run_cons. cbn [length forallb] in *. rewrite Nat2Z.inj_succ.
    apply andb_true_iff in Hh. destruct Hh as [Ha Hh].
    destruct (tick_config m adc) as (_ & _ & _ & _ & Eth).
    replace (n + Z.succ (Z.of_nat (length ticks)))
      with ((n + 1) + Z.of_nat (length ticks)) by lia.
    apply IH; rewrite ?Eth; try assumption; try lia.
    now apply monitoring_tick.
Qed.

(** X10: in undervoltage-only mode, while every sample is at or above the
    threshold, the battery is measured once every 110 ticks exactly: after
    [n] ticks there have been [n / 110] measurements, the cadence counter
    is [n mod 110], and the load is still on. *)
Theorem guard_only_measures_every_110_ticks
    (b : board) (ticks : list tick_input)
    (Hmode : get_feature_selection b = false)
    (Hhealthy :
       forallb (healthy_sample (undervoltage_adc_threshold (boot b))) ticks = true) :
  Z.of_nat (length (samples (trace (run (boot b) ticks)))) =
    Z.of_nat (length ticks) / 110 /\
  wakeup_count_undervoltage_protection (run (boot b) ticks) =
    Z.of_nat (length ticks) mod 110 /\
  load_on (run (boot b) ticks) = true.
Proof.
  assert (H0 : monitoring (boot b) 0).
  { rewrite boot_eq. unfold monitoring. fields. rewrite Hmode. repeat split. }
  destruct (monitoring_run ticks (boot b) 0 H0) as (_ & _ & Hp & Huv & Hn);
    try assumption; try lia.
  rewrite load_on_pin. rewrite Z.add_0_l in *. repeat split; assumption.
Qed.

Lemma guard_only_measures_every_110_ticks_witness :
  let ticks := repeat (adc_constant 800) 250 in
  Z.of_nat (length (samples (trace (run (boot board_12V_guard_only) ticks)))) =
    Z.of_nat (length ticks) / 110 /\
  wakeup_count_undervoltage_protection (run (boot board_12V_guard_only) ticks) =
    Z.of_nat (length ticks) mod 110 /\
  load_on (run (boot board_12V_guard_only) ticks) = true.
Proof.
  intros ticks.
  apply (guard_only_measures_every_110_ticks board_12V_guard_only ticks);
    vm_compute; reflexivity.
Defined.

(** ** Measuring across the off phase *)

(** A tick that starts with the load on leaves the cadence counter below
    the measurement period, whatever it was before. *)
Lemma cadence_bound_load_on m adc :
  load_on m = true ->
  0 <= wakeup_count_undervoltage_protection (tick m adc) < 110.
Proof.
  intros Hon. destruct (tick_cadence m adc) as [-> _].
  unfold measurement_due, TIMING_CYCLES_BATTERY_MEASUREMENT.
  rewrite Hon. cbn [andb].
  pose proof (u16_range (wakeup_count_undervoltage_protection m + 1)) as Hr.
  destruct (_ >=? 110) eqn:E; [lia|].
  rewrite Z.geb_leb in E. apply Z.leb_gt in E. lia.
Qed.

Lemma cadence_load_off m adc :
  load_on m = false ->
  wakeup_count_undervoltage_protection (tick m adc) =
    u16 (wakeup_count_undervoltage_protection m + 1) /\
  samples (trace (tick m adc)) = samples (trace m).
Proof.
  intros Hoff. destruct (tick_cadence m adc) as [-> ->].
  unfold measurement_due. rewrite Hoff. cbn [andb].
  now rewrite app_nil_r.
Qed.

Lemma on_phase_complete ticks : forall m k,
  in_on_phase m k -> 0 <= k -> ticks <> [] ->
  k + Z.of_nat (length ticks) = timing_cycles_load_on m ->
  timing_cycles_load_on m < 2 ^ 16 ->
  forallb (healthy_sample (undervoltage_adc_threshold m)) ticks = true ->
  in_off_phase (run m ticks) 0 /\
  0 <= wakeup_count_undervoltage_protection (run m ticks) < 110.
Proof.
  induction ticks as [|adc ticks IH]; intros m k Hm H0 Hne Hlen Hmax Hh;
    [congruence|].
  rewrite run_cons. cbn [length forallb] in *. rewrite Nat2Z.inj_succ in Hlen.
  apply andb_true_iff in Hh. destruct Hh as [Ha Hh].
  assert (Hon : load_on m = true)
    by (rewrite load_on_pin; destruct Hm as (_ & _ & _ & Hp & _); exact Hp).
  pose proof (cadence_bound_load_on m adc Hon) as Huv'.
  destruct (tick_config m adc) as (_ & _ & Eon & _ & Eth).
  destruct ticks as [|adc' ticks].
  - cbn [run fold_left length Z.of_nat] in *. split; [|exact Huv'].
    apply on_phase_end with (k := k); try assumption; lia.
  - apply (IH (tick m adc) (k + 1)); rewrite ?Eon, ?Eth;
      try assumption; try lia; try discriminate.
    apply on_phase_tick; try assumption; cbn [length] in *; lia.
Qed.

Lemma off_phase_complete ticks : forall m k,
  in_off_phase m k -> 0 <= k -> ticks <> [] ->
  k + Z.of_nat (length ticks) = timing_cycles_load_off m ->
  timing_cycles_load_off m < 2 ^ 16 ->
  0 <= wakeup_count_undervoltage_protection m ->
  wakeup_count_undervoltage_protection m + Z.of_nat (length ticks) < 2 ^ 16 ->
  in_on_phase (run m ticks) 0 /\
  wakeup_count_undervoltage_protection (run m ticks) =
    wakeup_count_undervoltage_protection m + Z.of_nat (length ticks) /\
  samples (trace (run m ticks)) = samples (trace m).
Proof.
  induction ticks as [|adc ticks IH]; intros m k Hm H0 Hne Hlen Hmax Huv Hfit;
    [congruence|].
  rewrite run_cons. cbn [length] in *. rewrite Nat2Z.inj_succ in *.
  assert (Hoff : load_on m = false)
    by (rewrite load_on_pin; destruct Hm as (_ & _ & _ & Hp & _); exact Hp).
  destruct (cadence_load_off m adc Hoff) as [Ec Es].
  rewrite u16_small in Ec by lia.
  destruct (tick_config m adc) as (_ & _ & _ & Eoff & _).
  destruct ticks as [|adc' ticks].
  - cbn [run fold_left length Z.of_nat] in *.
    split; [|split; [lia | exact Es]].
    apply off_phase_end with (k := k); try assumption; lia.
  - destruct (IH (tick m adc) (k + 1)) as (Hp & Hc & Hs);
      rewrite ?Eoff, ?Ec; try lia; try discriminate.
    + apply off_phase_tick; try assumption; cbn [length] in *; lia.
    + split; [exact Hp|]. split; [rewrite Hc, Ec; lia | now rewrite Hs, Es].
Qed.

(** X11: on a board with all features selected, in every period of the
    duty cycle -- the first after [setup()] or any later one, [before]
    being the whole periods already played -- nothing is measured during
    the off phase, the cadence counter keeps counting through it, and so
    the battery is measured on the very first tick after the load has been
    switched back on. *)
Theorem measurement_after_switching_on
    (b : board) (before : list (list tick_input * list tick_input))
    (on_ticks off_ticks : list tick_input) (adc : tick_input)
    (Hfeatures : get_feature_selection b = true)
    (Hbefore :
       forallb (period_ok (timing_cycles_load_on (boot b))
                  (timing_cycles_load_off (boot b))
                  (undervoltage_adc_threshold (boot b))) before = true)
    (Hon_length : Z.of_nat (length on_ticks) = timing_cycles_load_on (boot b))
    (Hoff_length : Z.of_nat (length off_ticks) = timing_cycles_load_off (boot b))
    (Hhealthy :
       forallb (healthy_sample (undervoltage_adc_threshold (boot b))) on_ticks = true) :
  samples (trace (run (boot b) (play before ++ on_ticks ++ off_ticks))) =
    samples (trace (run (boot b) (play before ++ on_ticks))) /\
  load_on (run (boot b) (play before ++ on_ticks ++ off_ticks)) = true /\
  timing_cycles_load_off (boot b) <=
    wakeup_count_undervoltage_protection
      (run (boot b) (play before ++ on_ticks ++ off_ticks)) /\
  samples (trace (run (boot b) (play before ++ on_ticks ++ off_ticks ++ [adc]))) =
    samples (trace (run (boot b) (play before ++ on_ticks))) ++ [battery_sample adc].
Proof.
  destruct (boot_timing_bounds b) as [Hon Hoff].
  assert (Hne_on : on_ticks <> []) by (intros ->; cbn in Hon_length; lia).
  assert (Hne_off : off_ticks <> []) by (intros ->; cbn in Hoff_length; lia).
  assert (Hstart : in_on_phase (run (boot b) (play before)) 0).
  { apply periods_run; try assumption; try lia. now apply boot_in_on_phase. }
  destruct (run_config (boot b) (play before)) as (_ & _ & Eon0 & Eoff0 & Eth0).
  rewrite !run_app.
  set (m0 := run (boot b) (play before)) in *.
  destruct (on_phase_complete on_ticks m0 0) as [Hend Huv];
    rewrite ?Eon0, ?Eth0; try assumption; try lia.
  destruct (run_config m0 on_ticks) as (_ & _ & _ & Eoff & _).
  destruct (off_phase_complete off_ticks (run m0 on_ticks) 0)
    as (Hagain & Hc & Hs); rewrite ?Eoff, ?Eoff0; try assumption; try lia.
  set (m := run (run m0 on_ticks) off_ticks) in *.
  assert (Hload : load_on m = true)
    by (rewrite load_on_pin; destruct Hagain as (_ & _ & _ & Hp & _); exact Hp).
  split; [exact Hs|]. split; [exact Hload|]. split; [lia|].
  change (run m [adc]) with (tick m adc).
  destruct (tick_cadence m adc) as [_ ->].
  unfold measurement_due, TIMING_CYCLES_BATTERY_MEASUREMENT.
  rewrite Hload, u16_small by lia. cbn [andb].
  replace (_ >=? 110) with true; [now rewrite Hs|].
  symmetry. apply Z.geb_le. lia.
Qed.

Definition one_period_12V : list (list tick_input * list tick_input) :=
  [(repeat (adc_constant 800) (Z.to_nat 7031),
    repeat (adc_constant 0) (Z.to_nat 3516))].

Lemma measurement_after_switching_on_witness :
  let on_ticks := repeat (adc_constant 800) (Z.to_nat 7031) in
  let off_ticks := repeat (adc_constant 0) (Z.to_nat 3516) in
  samples (trace (run (boot board_12V_full)
                    (play one_period_12V ++ on_ticks ++ off_ticks))) =
    samples (trace (run (boot board_12V_full) (play one_period_12V ++ on_ticks))) /\
  load_on (run (boot board_12V_full)
             (play one_period_12V ++ on_ticks ++ off_ticks)) = true /\
  timing_cycles_load_off (boot board_12V_full) <=
    wakeup_count_undervoltage_protection
      (run (boot board_12V_full) (play one_period_12V ++ on_ticks ++ off_ticks)) /\
  samples (trace (run (boot board_12V_full)
                    (play one_period_12V ++ on_ticks ++ off_ticks
                     ++ [adc_constant 700]))) =
    samples (trace (run (boot board_12V_full) (play one_period_12V ++ on_ticks)))
      ++ [battery_sample (adc_constant 700)].
Proof.
  intros on_ticks off_ticks.
  apply (measurement_after_switching_on board_12V_full one_period_12V
           on_ticks off_ticks (adc_constant 700)); vm_compute; reflexivity.
Defined.
